(** * MitraVerify: the hybrid evidence-retrieval core

  A shallow embedding of
    - [backend/models/vector_search.py]  (FAISSVectorSearch, EvidenceRetriever,
      HybridRetriever),
    - [backend/models/reranker.py]       (CrossEncoderReranker, HybridRetriever),
    - [backend/models/embedding_engine.py] (TextEmbeddingEngine.encode_text),
    - [backend/models/caching.py]        (CacheEntry, MemoryCache, CacheManager),
  followed by the properties of the specification that concern them.

  Conventions of the embedding.
    - Python [float] scores are idealised as real numbers ([R]); the
      comparisons the code performs on them are the classical decisions
      [Rlt_dec] and [Rle_dec].
    - [time.time()] readings are rationals ([Q]): a finite double is a
      rational and the cache only compares and subtracts them.  Every
      operation receives the clock readings it makes as arguments.
    - A [try: ... except Exception:] block is a function into [option]
      whose [None] is the raised exception; the handler is the [None] branch
      of the caller.
    - External collaborators (the FAISS index, the sentence-transformer
      model, the cross-encoder, the files on disk) are values of the state:
      functions into [option], [None] standing for a raised exception. *)

From Stdlib Require Import List ZArith Bool String Ascii Lia.
From Stdlib Require Import QArith Reals Lra Permutation Sorted.
Import ListNotations.

Set Implicit Arguments.

(* ================================================================= *)
(** * Part I: the embedding                                           *)
(* ================================================================= *)

(** ** Python built-ins used by the sources *)

Module Py.

Definition len {A : Type} (l : list A) : Z := Z.of_nat (List.length l).

(** [l[i]]: a negative subscript counts from the end; [None] is IndexError. *)
Definition index {A : Type} (l : list A) (i : Z) : option A :=
  if (0 <=? i)%Z then nth_error l (Z.to_nat i)
  else if (0 <=? len l + i)%Z then nth_error l (Z.to_nat (len l + i))
  else None.

(** [l[:k]]: a negative bound drops the last [-k] elements. *)
Definition slice_to {A : Type} (l : list A) (k : Z) : list A :=
  if (0 <=? k)%Z then firstn (Z.to_nat k) l
  else firstn (Z.to_nat (len l + k)) l.

(** [enumerate(l)], counting from [start]. *)
Fixpoint enumerate_from {A : Type} (start : Z) (l : list A) : list (Z * A) :=
  match l with
  | [] => []
  | x :: rest => (start, x) :: enumerate_from (start + 1) rest
  end.

(** Comparisons of floats, as booleans. *)
Definition Rltb (a b : R) : bool := if Rlt_dec a b then true else false.
Definition Rgeb (a b : R) : bool := if Rle_dec b a then true else false.

(** [min(a, b)] and [max(a, b)]: the first argument is kept unless the
    second is strictly better. *)
Definition min (a b : R) : R := if Rlt_dec b a then b else a.
Definition max (a b : R) : R := if Rlt_dec a b then b else a.

(** [str.isspace] on one (ASCII) character: TAB, LF, VT, FF, CR, the four
    separators FS..US and the space. *)
Definition isspace (c : ascii) : bool :=
  let n := nat_of_ascii c in
  ((9 <=? n)%nat && (n <=? 13)%nat) || ((28 <=? n)%nat && (n <=? 32)%nat).

Fixpoint lstrip (s : string) : string :=
  match s with
  | EmptyString => EmptyString
  | String c rest => if isspace c then lstrip rest else s
  end.

Fixpoint rstrip (s : string) : string :=
  match s with
  | EmptyString => EmptyString
  | String c rest =>
      match rstrip rest with
      | EmptyString => if isspace c then EmptyString else String c EmptyString
      | r => String c r
      end
  end.

(** [s.strip()] *)
Definition strip (s : string) : string := rstrip (lstrip s).

(** [list.sort(key=key, reverse=True)]: stable, descending.  An element is
    placed before the first element whose key is not strictly greater, so
    equal keys keep their original order. *)
Section Sort.
Variable A : Type.
Variable key : A -> R.

Fixpoint insert_desc (x : A) (l : list A) : list A :=
  match l with
  | [] => [x]
  | y :: rest =>
      if Rltb (key x) (key y) then y :: insert_desc x rest
      else x :: y :: rest
  end.

Definition sort_desc (l : list A) : list A :=
  fold_right insert_desc [] l.
End Sort.

End Py.

(** ** Score fusion: [_combine_scores]

  [CrossEncoderReranker._combine_scores] (reranker.py) and
  [HybridRetriever._combine_scores] (vector_search.py) have the same body;
  both call sites below use this one definition.  [np.exp] of a float and
  the division by [1 + exp(..)] cannot raise, so the handler that returns
  [similarity_score] is not reached. *)

Module Fusion.
Open Scope R_scope.

Definition default_similarity_weight : R := 0.3.
Definition default_rerank_weight : R := 0.7.

Definition _combine_scores_weighted
    (similarity_score rerank_score similarity_weight rerank_weight : R) : R :=
  let normalized_rerank := 1 / (1 + exp (- rerank_score)) in
  let combined :=
    (similarity_weight * similarity_score) + (rerank_weight * normalized_rerank) in
  Py.max 0 (Py.min 1 combined).

Definition _combine_scores (similarity_score rerank_score : R) : R :=
  _combine_scores_weighted similarity_score rerank_score
    default_similarity_weight default_rerank_weight.

(** The specification's words, for comparison with the code. *)
Definition sigmoid (x : R) : R := / (1 + exp (- x)).
Definition clamp01 (x : R) : R := Rmax 0 (Rmin 1 x).
Definition fused_score_spec (similarity_score rerank_score : R) : R :=
  clamp01 (0.3 * similarity_score + 0.7 * sigmoid rerank_score).

End Fusion.


(** ** Python dictionaries with string keys

    A [dict] keeps its keys in insertion order and [min] over its keys
    depends on that order, so a dictionary is an association list:
    assignment replaces the value of a present key in place and appends an
    absent one. *)

Module Dict.
Section Ops.
Variable V : Type.

Definition t : Type := list (string * V).

Fixpoint get (k : string) (d : t) : option V :=
  match d with
  | [] => None
  | (k', v) :: rest => if String.eqb k k' then Some v else get k rest
  end.

Definition mem (k : string) (d : t) : bool :=
  match get k d with Some _ => true | None => false end.

Fixpoint set (k : string) (v : V) (d : t) : t :=
  match d with
  | [] => [(k, v)]
  | (k', v') :: rest =>
      if String.eqb k k' then (k', v) :: rest else (k', v') :: set k v rest
  end.

Fixpoint del (k : string) (d : t) : t :=
  match d with
  | [] => []
  | (k', v') :: rest => if String.eqb k k' then rest else (k', v') :: del k rest
  end.

Definition keys (d : t) : list string := map fst d.
End Ops.
End Dict.

(** ** embedding_engine.py: [TextEmbeddingEngine] *)

Module EmbeddingEngine.

Definition vector : Type := list R.

(** The object's fields that [encode_text] reads or writes.  [model] is
    [None] when the sentence-transformer failed to load; applied to a text it
    is [self.model.encode(text, ...)], [None] when that call raises.
    [_get_text_hash] is the MD5 digest of the text, kept abstract. *)
Record TextEmbeddingEngine : Type := {
  model : option (string -> option vector);
  embedding_dim : nat;
  embedding_cache : Dict.t vector;
  _get_text_hash : string -> string
}.

Definition with_embedding_cache (e : TextEmbeddingEngine) (c : Dict.t vector) :=
  {| model := model e; embedding_dim := embedding_dim e;
     embedding_cache := c; _get_text_hash := _get_text_hash e |}.

(** [np.zeros(n)] *)
Definition zeros (n : nat) : vector := repeat 0%R n.

Definition is_empty (s : string) : bool :=
  match s with EmptyString => true | _ => false end.

(** [not text or not text.strip()] *)
Definition blank (text : string) : bool :=
  is_empty text || is_empty (Py.strip text).

(** [encode_text(text, use_cache)]: the returned embedding ([None] for the
    Python [None]) and the engine afterwards.  The periodic [_save_cache]
    only writes a file and swallows its own errors. *)
Definition encode_text (e : TextEmbeddingEngine) (text : string) (use_cache : bool)
  : option vector * TextEmbeddingEngine :=
  match model e with
  | None => (None, e)
  | Some encode =>
      if blank text then (Some (zeros (embedding_dim e)), e)
      else
        let text_hash := _get_text_hash e text in
        match (if use_cache then Dict.get text_hash (embedding_cache e) else None) with
        | Some cached => (Some cached, e)
        | None =>
            match encode text with
            | Some embedding =>
                (Some embedding,
                 if use_cache
                 then with_embedding_cache e
                        (Dict.set text_hash embedding (embedding_cache e))
                 else e)
            | None => (None, e)
            end
        end
  end.

(** [np.dot] of two one-dimensional arrays; [None] is the ValueError of
    unequal lengths. *)
Fixpoint dot (a b : vector) : option R :=
  match a, b with
  | [], [] => Some 0%R
  | x :: a', y :: b' =>
      match dot a' b' with
      | Some s => Some (x * y + s)%R
      | None => None
      end
  | _, _ => None
  end.

Fixpoint sum_of_squares (a : vector) : R :=
  match a with
  | [] => 0%R
  | x :: a' => (x * x + sum_of_squares a')%R
  end.

(** [np.linalg.norm] *)
Definition norm (a : vector) : R := sqrt (sum_of_squares a).

(** [compute_similarity]; an exception gives [0.0]. *)
Definition compute_similarity (embedding1 embedding2 : vector) : R :=
  match dot embedding1 embedding2 with
  | None => 0%R
  | Some dot_product =>
      let norm1 := norm embedding1 in
      let norm2 := norm embedding2 in
      if Req_EM_T norm1 0%R then 0%R
      else if Req_EM_T norm2 0%R then 0%R
      else
        let similarity := (dot_product / (norm1 * norm2))%R in
        Py.max 0 (Py.min 1 similarity)
  end.

(** The loop of [find_similar_texts] over [enumerate(text_embeddings)],
    counting from [i]. *)
Fixpoint similarities_from (i : Z) (query_embedding : vector)
    (text_embeddings : list (option vector)) : list (Z * R) :=
  match text_embeddings with
  | [] => []
  | Some text_embedding :: rest =>
      (i, compute_similarity query_embedding text_embedding)
        :: similarities_from (i + 1) query_embedding rest
  | None :: rest => similarities_from (i + 1) query_embedding rest
  end.

Definition find_similar_texts (query_embedding : vector)
    (text_embeddings : list (option vector)) (top_k : Z) : list (Z * R) :=
  Py.slice_to
    (Py.sort_desc snd (similarities_from 0 query_embedding text_embeddings))
    top_k.

(** *** [encode_batch] *)






(** Filling the awaiting slots in order, as the specification words it. *)
Fixpoint merge_in_order (embeddings : list (option vector)) (batch : list vector)
  : list (option vector) :=
  match embeddings with
  | [] => []
  | Some v :: rest => Some v :: merge_in_order rest batch
  | None :: rest =>
      match batch with
      | b :: batch' => Some b :: merge_in_order rest batch'
      | [] => None :: merge_in_order rest []
      end
  end.




(** *** [preprocess_text] *)

(** [text.split()]: the maximal runs of characters that are not
    whitespace; [current] is the run being read. *)
Fixpoint split_from (current : string) (s : string) : list string :=
  match s with
  | EmptyString => if is_empty current then [] else [current]
  | String c rest =>
      if Py.isspace c
      then if is_empty current then split_from EmptyString rest
           else current :: split_from EmptyString rest
      else split_from (current ++ String c EmptyString) rest
  end.

Definition split (s : string) : list string := split_from EmptyString s.





(** The engine with another model behind it, cache and settings kept. *)
Definition with_model (e : TextEmbeddingEngine)
    (m : option (string -> option vector)) : TextEmbeddingEngine :=
  {| model := m; embedding_dim := embedding_dim e;
     embedding_cache := embedding_cache e; _get_text_hash := _get_text_hash e |}.

End EmbeddingEngine.

(** ** vector_search.py *)

Module VectorSearch.
Import EmbeddingEngine.
Open Scope Z_scope.

(** A metadata dictionary, as [EvidenceRetriever.add_evidence] builds it.  A
    field read with [metadata.get(k)] is [None] when absent. *)
Record metadata_dict : Type := {
  m_id : option string;
  m_title : option string;
  m_content : option string;
  m_url : option string;
  m_source : option string;
  m_published_date : option string;
  m_author : option string;
  m_tags : list string;
  m_credibility_score : R
}.

(** The FAISS index behind [self.index]: [index.search(query, top_k)] gives
    the labels and distances of one query row, or raises ([None]).  FAISS
    pads an under-filled result with the label [-1]. *)
Definition faiss_index : Type := vector -> Z -> option (list (Z * R)).

(** Contents of the side file: [pickle.load] gives a dictionary whose three
    entries are read with [data.get(k, default)]. *)
Record pickled_metadata : Type := {
  p_metadata : option (list metadata_dict);
  p_id_to_idx : option (Dict.t Z);
  p_dimension : option Z
}.

(** What [load_index] finds on disk at the two resolved paths. *)
Record index_files : Type := {
  index_path_exists : bool;
  metadata_path_exists : bool;
  read_index : option faiss_index;        (* [None]: faiss.read_index raises *)
  pickle_load : option pickled_metadata   (* [None]: open or pickle.load raises *)
}.

Record FAISSVectorSearch : Type := {
  dimension : Z;
  index : option faiss_index;
  metadata : list metadata_dict;
  id_to_idx : Dict.t Z
}.

(** The loop of [search] that formats the hits; [None] when an iteration
    raises (ZeroDivisionError of the division, IndexError of the subscript). *)
Fixpoint format_results (md : list metadata_dict) (hits : list (Z * R))
  : option (list (Z * R * metadata_dict)) :=
  match hits with
  | [] => Some []
  | (idx, distance) :: rest =>
      if idx <? Py.len md then
        if Req_EM_T (1 + distance)%R 0%R then None
        else
          let similarity := (1 / (1 + distance))%R in
          match Py.index md idx with
          | None => None
          | Some m =>
              match format_results md rest with
              | None => None
              | Some results => Some ((idx, similarity, m) :: results)
              end
          end
      else format_results md rest
  end.

Definition search (self : FAISSVectorSearch) (query_vector : vector) (top_k : Z)
  : list (Z * R * metadata_dict) :=
  match index self with
  | None => []
  | Some faiss =>
      match faiss query_vector top_k with
      | None => []
      | Some hits =>
          match format_results (metadata self) hits with
          | None => []
          | Some results => results
          end
      end
  end.

Definition or_default {A : Type} (o : option A) (d : A) : A :=
  match o with Some a => a | None => d end.

(** [load_index]: the returned flag and the object afterwards.  The index
    is assigned before the side file is read, so a failing [pickle.load]
    leaves the new index with the old metadata. *)
Definition load_index (files : index_files) (self : FAISSVectorSearch)
  : bool * FAISSVectorSearch :=
  if negb (index_path_exists files) || negb (metadata_path_exists files)
  then (false, self)
  else
    match read_index files with
    | None => (false, self)
    | Some loaded =>
        match pickle_load files with
        | None =>
            (false,
             {| dimension := dimension self; index := Some loaded;
                metadata := metadata self; id_to_idx := id_to_idx self |})
        | Some data =>
            (true,
             {| dimension := or_default (p_dimension data) (dimension self);
                index := Some loaded;
                metadata := or_default (p_metadata data) [];
                id_to_idx := or_default (p_id_to_idx data) [] |})
        end
    end.

(** An evidence dictionary returned by [retrieve_evidence], with the four
    entries the rerankers add later. *)
Record evidence : Type := {
  e_id : option string;
  e_title : option string;
  e_content : option string;
  e_url : option string;
  e_source : option string;
  e_published_date : option string;
  e_author : option string;
  e_tags : list string;
  e_credibility_score : R;
  e_similarity_score : R;
  e_faiss_index : Z;
  e_rerank_score : option R;
  e_combined_score : option R;
  e_final_rank : option Z;
  e_ranking_method : option string
}.

Definition make_evidence (idx : Z) (similarity : R) (m : metadata_dict) : evidence :=
  {| e_id := m_id m; e_title := m_title m; e_content := m_content m;
     e_url := m_url m; e_source := m_source m;
     e_published_date := m_published_date m; e_author := m_author m;
     e_tags := m_tags m; e_credibility_score := m_credibility_score m;
     e_similarity_score := similarity; e_faiss_index := idx;
     e_rerank_score := None; e_combined_score := None;
     e_final_rank := None; e_ranking_method := None |}.

(** [passage_copy['rerank_score'] = ...; passage_copy['combined_score'] = ...] *)
Definition with_scores (p : evidence) (rerank combined : R) : evidence :=
  {| e_id := e_id p; e_title := e_title p; e_content := e_content p;
     e_url := e_url p; e_source := e_source p;
     e_published_date := e_published_date p; e_author := e_author p;
     e_tags := e_tags p; e_credibility_score := e_credibility_score p;
     e_similarity_score := e_similarity_score p; e_faiss_index := e_faiss_index p;
     e_rerank_score := Some rerank; e_combined_score := Some combined;
     e_final_rank := e_final_rank p; e_ranking_method := e_ranking_method p |}.

(** [result['final_rank'] = ...; result['ranking_method'] = ...] *)
Definition with_ranking (p : evidence) (rank : Z) (method : string) : evidence :=
  {| e_id := e_id p; e_title := e_title p; e_content := e_content p;
     e_url := e_url p; e_source := e_source p;
     e_published_date := e_published_date p; e_author := e_author p;
     e_tags := e_tags p; e_credibility_score := e_credibility_score p;
     e_similarity_score := e_similarity_score p; e_faiss_index := e_faiss_index p;
     e_rerank_score := e_rerank_score p; e_combined_score := e_combined_score p;
     e_final_rank := Some rank; e_ranking_method := Some method |}.

Record EvidenceRetriever : Type := {
  embedding_engine : TextEmbeddingEngine;
  vector_search : FAISSVectorSearch
}.

(** The filtering loop of [retrieve_evidence]. *)
Fixpoint filter_results (min_similarity : R) (results : list (Z * R * metadata_dict))
  : list evidence :=
  match results with
  | [] => []
  | (idx, similarity, m) :: rest =>
      if Py.Rgeb similarity min_similarity
      then make_evidence idx similarity m :: filter_results min_similarity rest
      else filter_results min_similarity rest
  end.

(** [retrieve_evidence]: the evidence list and the retriever afterwards (the
    query's embedding may have entered the engine's cache). *)
Definition retrieve_evidence (self : EvidenceRetriever) (query : string)
    (top_k : Z) (min_similarity : R) : list evidence * EvidenceRetriever :=
  let (query_embedding, engine') := encode_text (embedding_engine self) query true in
  let self' := {| embedding_engine := engine'; vector_search := vector_search self |} in
  match query_embedding with
  | None => ([], self')
  | Some q =>
      let results := search (vector_search self) q top_k in
      (filter_results min_similarity results, self')
  end.

(** *** The body shared by the two rerankers

    [HybridRetriever._rerank_with_cross_encoder] (this file) and
    [CrossEncoderReranker.rerank] (reranker.py) run the same statements
    inside their [try] block. *)

(** The cross-encoder: [predict(pairs)], [None] when it raises. *)
Definition cross_encoder_model : Type := list (string * string) -> option (list R).

Definition ellipsis : string := "...".
Definition none_repr : string := "None".

(** The text paired with the query for one passage; [None] is the TypeError
    of [len(content)] on a missing content. *)
Definition passage_text (passage : evidence) : option string :=
  match e_content passage with
  | None => None
  | Some content =>
      let title := or_default (e_title passage) none_repr in
      let content :=
        if (500 <? Z.of_nat (String.length content))
        then (substring 0 500 content ++ ellipsis)%string
        else content in
      Some (Py.strip (title ++ " " ++ content)%string)
  end.

Fixpoint query_passage_pairs (query : string) (passages : list evidence)
  : option (list (string * string)) :=
  match passages with
  | [] => Some []
  | passage :: rest =>
      match passage_text passage with
      | None => None
      | Some text =>
          match query_passage_pairs query rest with
          | None => None
          | Some pairs => Some ((query, text) :: pairs)
          end
      end
  end.

(** The loop that copies each passage and adds its two scores; [None] is
    the IndexError of [scores[i]] when the model gave too few scores. *)
Fixpoint score_passages (passages : list evidence) (scores : list R)
  : option (list evidence) :=
  match passages, scores with
  | [], _ => Some []
  | _ :: _, [] => None
  | passage :: rest, s :: scores' =>
      match score_passages rest scores' with
      | None => None
      | Some scored =>
          Some (with_scores passage s
                  (Fusion._combine_scores (e_similarity_score passage) s) :: scored)
      end
  end.

(** [x['combined_score']] of a scored passage. *)
Definition combined_key (p : evidence) : R := or_default (e_combined_score p) 0%R.

(** [if top_k: l = l[:top_k]] with [top_k : Optional[int]] *)
Definition truncate (top_k : option Z) (l : list evidence) : list evidence :=
  match top_k with
  | None => l
  | Some k => if k =? 0 then l else Py.slice_to l k
  end.

(** The [try] block; [None] when it raises. *)
Definition rerank_body (model : cross_encoder_model) (query : string)
    (passages : list evidence) (top_k : option Z) : option (list evidence) :=
  match query_passage_pairs query passages with
  | None => None
  | Some pairs =>
      match model pairs with
      | None => None
      | Some scores =>
          match score_passages passages scores with
          | None => None
          | Some reranked_passages =>
              Some (truncate top_k (Py.sort_desc combined_key reranked_passages))
          end
      end
  end.

(** The loop that numbers and tags the final results. *)
Definition add_ranking_metadata (method : string) (reranked : list evidence)
  : list evidence :=
  map (fun ir => with_ranking (snd ir) (fst ir + 1) method)
      (Py.enumerate_from 0 reranked).

(** *** [HybridRetriever] of vector_search.py *)

Record HybridRetriever : Type := {
  evidence_retriever : EvidenceRetriever;
  cross_encoder : option cross_encoder_model
}.

Definition with_retriever (self : HybridRetriever) (r : EvidenceRetriever) :=
  {| evidence_retriever := r; cross_encoder := cross_encoder self |}.

Definition _rerank_with_cross_encoder (model : cross_encoder_model) (query : string)
    (passages : list evidence) (top_k : option Z) : list evidence :=
  match rerank_body model query passages top_k with
  | Some reranked => reranked
  | None => passages
  end.

Definition dense_only : string := "dense_only".
Definition hybrid_dense_crossencoder : string := "hybrid_dense_crossencoder".

(** [retrieve_and_rerank].  No statement of its [try] block can raise:
    [retrieve_evidence] and [_rerank_with_cross_encoder] catch every
    exception themselves, and the rest are slices and item assignments; the
    handler that retrieves again is therefore not reached. *)
Definition retrieve_and_rerank (self : HybridRetriever) (query : string)
    (initial_top_k final_top_k : Z) (min_similarity : R)
  : list evidence * HybridRetriever :=
  let (candidates, retriever') :=
    retrieve_evidence (evidence_retriever self) query initial_top_k min_similarity in
  let self' := with_retriever self retriever' in
  match candidates with
  | [] => ([], self')
  | _ :: _ =>
      let reranked :=
        match cross_encoder self with
        | Some model => _rerank_with_cross_encoder model query candidates (Some final_top_k)
        | None => Py.slice_to candidates final_top_k
        end in
      let method :=
        match cross_encoder self with
        | Some _ => hybrid_dense_crossencoder
        | None => dense_only
        end in
      (add_ranking_metadata method reranked, self')
  end.

(** *** Updating, persisting and reading the index *)

(** [with_id m evidence_id]: the dictionary [get_evidence_by_id] returns,
    the stored fields under the id asked for. *)
Definition with_id (m : metadata_dict) (evidence_id : string) : metadata_dict :=
  {| m_id := Some evidence_id; m_title := m_title m; m_content := m_content m;
     m_url := m_url m; m_source := m_source m;
     m_published_date := m_published_date m; m_author := m_author m;
     m_tags := m_tags m; m_credibility_score := m_credibility_score m |}.

(** [for i, doc_id in enumerate(ids): self.id_to_idx[doc_id] = start_idx + i],
    with the enumeration starting at [s]. *)
Definition register_from (s : Z) (ids : list string) (start_idx : Z) (d : Dict.t Z)
  : Dict.t Z :=
  fold_left (fun acc id => Dict.set (snd id) (start_idx + fst id) acc)
            (Py.enumerate_from s ids) d.

Definition register_ids (ids : list string) (start_idx : Z) (d : Dict.t Z) : Dict.t Z :=
  register_from 0 ids start_idx d.

(** [add_vectors].  [faiss_add] is [self.index.add(vectors)]: the index
    afterwards, or [None] when the conversion of the vectors or the call
    raises, which happens before the metadata is touched. *)
Definition add_vectors (faiss_add : faiss_index -> list vector -> option faiss_index)
    (self : FAISSVectorSearch) (vectors : list vector)
    (new_metadata : list metadata_dict) (ids : option (list string))
  : bool * FAISSVectorSearch :=
  match index self with
  | None => (false, self)
  | Some faiss =>
      if negb (Py.len vectors =? Py.len new_metadata) then (false, self)
      else
        match faiss_add faiss vectors with
        | None => (false, self)
        | Some faiss' =>
            let start_idx := Py.len (metadata self) in
            (true,
             {| dimension := dimension self;
                index := Some faiss';
                metadata := (metadata self ++ new_metadata)%list;
                id_to_idx :=
                  match ids with
                  | Some l => register_ids l start_idx (id_to_idx self)
                  | None => id_to_idx self
                  end |})
        end
  end.

(** [save_index]: the files written when it returns [True], [None] when it
    returns [False] (no index, or a write raises, [writes_succeed = false]).
    FAISS's own serialisation is taken to be faithful: reading the blob gives
    the index back. *)
Definition save_index (writes_succeed : bool) (self : FAISSVectorSearch)
  : option index_files :=
  match index self with
  | None => None
  | Some faiss =>
      if writes_succeed
      then Some {| index_path_exists := true; metadata_path_exists := true;
                   read_index := Some faiss;
                   pickle_load :=
                     Some {| p_metadata := Some (metadata self);
                             p_id_to_idx := Some (id_to_idx self);
                             p_dimension := Some (dimension self) |} |}
      else None
  end.

(** [clear_index]; [fresh] is the new empty HNSW index, [None] when
    building it raises. *)
Definition clear_index (fresh : option faiss_index) (self : FAISSVectorSearch)
  : FAISSVectorSearch :=
  {| dimension := dimension self;
     index := match index self with Some _ => fresh | None => None end;
     metadata := [];
     id_to_idx := [] |}.

(** Every registered id maps to a position of the metadata list. *)
Definition ids_in_bounds (self : FAISSVectorSearch) : Prop :=
  forall id idx, Dict.get id (id_to_idx self) = Some idx ->
                 0 <= idx < Py.len (metadata self).

(** [EvidenceRetriever.get_evidence_by_id]; the IndexError of a subscript is
    caught and gives [None]. *)
Definition get_evidence_by_id (self : EvidenceRetriever) (evidence_id : string)
  : option metadata_dict :=
  match Dict.get evidence_id (id_to_idx (vector_search self)) with
  | None => None
  | Some idx =>
      if idx <? Py.len (metadata (vector_search self)) then
        match Py.index (metadata (vector_search self)) idx with
        | Some m => Some (with_id m evidence_id)
        | None => None
        end
      else None
  end.

(** An article handed to [add_evidence]; a field is [None] when the
    dictionary lacks the key. *)
Record article : Type := {
  a_id : option string;
  a_url : option string;
  a_title : option string;
  a_content : option string;
  a_source : option string;
  a_published_date : option string;
  a_author : option string;
  a_tags : option (list string);
  a_credibility_score : option R;
  a_embedding : option (list R)
}.

(** [article.get('id', article.get('url', ''))] *)
Definition article_id (a : article) : string :=
  or_default (a_id a) (or_default (a_url a) EmptyString).

Definition article_metadata (a : article) : metadata_dict :=
  {| m_id := Some (article_id a);
     m_title := Some (or_default (a_title a) EmptyString);
     m_content := Some (or_default (a_content a) EmptyString);
     m_url := Some (or_default (a_url a) EmptyString);
     m_source := Some (or_default (a_source a) EmptyString);
     m_published_date := a_published_date a;
     m_author := a_author a;
     m_tags := or_default (a_tags a) [];
     m_credibility_score := or_default (a_credibility_score a) 0.5%R |}.

(** [if embedding:] holds for a non-empty list. *)
Definition has_embedding (a : article) : bool :=
  match a_embedding a with
  | Some (_ :: _) => true
  | _ => false
  end.

(** The articles [add_evidence] keeps, in order. *)
Definition embedded_articles (articles : list article) : list article :=
  filter has_embedding articles.

(** [np.array(vectors)] of rows of unequal length cannot be added: it
    raises there or in the conversion inside [add_vectors], and either way
    the result is [False]. *)
Definition ragged (vectors : list vector) : bool :=
  match vectors with
  | [] => false
  | v :: rest =>
      negb (forallb (fun w => Nat.eqb (List.length w) (List.length v)) rest)
  end.

Definition add_evidence (faiss_add : faiss_index -> list vector -> option faiss_index)
    (self : EvidenceRetriever) (articles : list article)
  : bool * EvidenceRetriever :=
  let kept := embedded_articles articles in
  let vectors := map (fun a => or_default (a_embedding a) []) kept in
  let new_metadata := map article_metadata kept in
  let ids := map article_id kept in
  match vectors with
  | [] => (false, self)
  | _ :: _ =>
      if ragged vectors then (false, self)
      else
        let (success, vs') :=
          add_vectors faiss_add (vector_search self) vectors new_metadata (Some ids) in
        if success
        then (true, {| embedding_engine := embedding_engine self;
                       vector_search := vs' |})
        else (false, {| embedding_engine := embedding_engine self;
                        vector_search := vs' |})
  end.

End VectorSearch.

(** ** reranker.py *)

Module Reranker.
Import EmbeddingEngine VectorSearch.
Open Scope Z_scope.

Record CrossEncoderReranker : Type := {
  model : option cross_encoder_model
}.

Definition rerank (self : CrossEncoderReranker) (query : string)
    (passages : list evidence) (top_k : option Z) : list evidence :=
  match model self with
  | None => passages
  | Some m =>
      match passages with
      | [] => []
      | _ :: _ =>
          match rerank_body m query passages top_k with
          | Some reranked => reranked
          | None => passages
          end
      end
  end.

Record HybridRetriever : Type := {
  evidence_retriever : EvidenceRetriever;
  cross_encoder : CrossEncoderReranker
}.

Definition with_retriever (self : HybridRetriever) (r : EvidenceRetriever) :=
  {| evidence_retriever := r; cross_encoder := cross_encoder self |}.

(** [retrieve_and_rerank]; as in vector_search.py its handler is not
    reached, [rerank] catching its own exceptions. *)
Definition retrieve_and_rerank (self : HybridRetriever) (query : string)
    (initial_top_k final_top_k : Z) (min_similarity : R)
  : list evidence * HybridRetriever :=
  let (candidates, retriever') :=
    VectorSearch.retrieve_evidence (evidence_retriever self) query
      initial_top_k min_similarity in
  let self' := with_retriever self retriever' in
  match candidates with
  | [] => ([], self')
  | _ :: _ =>
      let reranked := rerank (cross_encoder self) query candidates (Some final_top_k) in
      (add_ranking_metadata hybrid_dense_crossencoder reranked, self')
  end.

End Reranker.

(** ** caching.py *)

Module Caching.
Open Scope Z_scope.

(** The cached values ([Any]); [PyNone] is Python's [None]. *)
Inductive pyvalue : Type :=
| PyNone
| PyBool (b : bool)
| PyInt (z : Z)
| PyStr (s : string).

Definition is_not_none (v : pyvalue) : bool :=
  match v with PyNone => false | _ => true end.

Definition Qltb (a b : Q) : bool := negb (Qle_bool b a).

Record CacheEntry : Type := {
  key : string;
  value : pyvalue;
  created_at : Q;
  ttl_seconds : Z;
  access_count : Z;
  last_accessed : Q
}.

(** [CacheEntry(key, value, ttl_seconds)]; the constructor reads the clock
    twice. *)
Definition new_entry (t_created t_accessed : Q) (k : string) (v : pyvalue) (ttl : Z)
  : CacheEntry :=
  {| key := k; value := v; created_at := t_created; ttl_seconds := ttl;
     access_count := 0; last_accessed := t_accessed |}.

(** [(time.time() - self.created_at) > self.ttl_seconds] *)
Definition is_expired (now : Q) (e : CacheEntry) : bool :=
  Qltb (inject_Z (ttl_seconds e)) (now - created_at e)%Q.

Definition access (now : Q) (e : CacheEntry) : CacheEntry :=
  {| key := key e; value := value e; created_at := created_at e;
     ttl_seconds := ttl_seconds e;
     access_count := access_count e + 1; last_accessed := now |}.

Record MemoryCache : Type := {
  default_ttl : Z;
  max_size : Z;
  _cache : Dict.t CacheEntry
}.

(** [MemoryCache(default_ttl, max_size)] *)
Definition new_cache (ttl size : Z) : MemoryCache :=
  {| default_ttl := ttl; max_size := size; _cache := [] |}.

Definition with_cache (self : MemoryCache) (d : Dict.t CacheEntry) : MemoryCache :=
  {| default_ttl := default_ttl self; max_size := max_size self; _cache := d |}.

Definition size (self : MemoryCache) : Z := Py.len (_cache self).

(** [get]: [t1] is the clock of the first [is_expired()], [t2] the clock of
    [access()] or of the second [is_expired()]. *)
Definition get (t1 t2 : Q) (k : string) (self : MemoryCache) : pyvalue * MemoryCache :=
  match Dict.get k (_cache self) with
  | Some entry =>
      if negb (is_expired t1 entry)
      then (value entry, with_cache self (Dict.set k (access t2 entry) (_cache self)))
      else if is_expired t2 entry
      then (PyNone, with_cache self (Dict.del k (_cache self)))
      else (PyNone, self)
  | None => (PyNone, self)
  end.

(** [min(items, key=last_accessed)]: the first of the smallest. *)
Fixpoint min_last_accessed (best : string * CacheEntry)
    (rest : list (string * CacheEntry)) : string * CacheEntry :=
  match rest with
  | [] => best
  | x :: rest' =>
      if Qltb (last_accessed (snd x)) (last_accessed (snd best))
      then min_last_accessed x rest'
      else min_last_accessed best rest'
  end.

(** The key [_evict_lru] deletes, if any. *)
Definition lru_key (self : MemoryCache) : option string :=
  match _cache self with
  | [] => None
  | first :: rest => Some (fst (min_last_accessed first rest))
  end.

Definition _evict_lru (self : MemoryCache) : MemoryCache :=
  match lru_key self with
  | None => self
  | Some k => with_cache self (Dict.del k (_cache self))
  end.

(** [ttl or self.default_ttl] *)
Definition ttl_or_default (ttl : option Z) (default : Z) : Z :=
  match ttl with
  | None => default
  | Some t => if t =? 0 then default else t
  end.

Definition set (t_created t_accessed : Q) (k : string) (v : pyvalue)
    (ttl : option Z) (self : MemoryCache) : bool * MemoryCache :=
  let self1 := if max_size self <=? size self then _evict_lru self else self in
  let ttl_seconds := ttl_or_default ttl (default_ttl self) in
  (true,
   with_cache self1
     (Dict.set k (new_entry t_created t_accessed k v ttl_seconds) (_cache self1))).

Definition delete (k : string) (self : MemoryCache) : bool * MemoryCache :=
  if Dict.mem k (_cache self)
  then (true, with_cache self (Dict.del k (_cache self)))
  else (false, self).

Definition clear (self : MemoryCache) : bool * MemoryCache :=
  (true, with_cache self []).

(** The sweep of the background thread, run under the lock. *)
Definition _cleanup_expired (now : Q) (self : MemoryCache) : MemoryCache :=
  with_cache self (filter (fun kv => negb (is_expired now (snd kv))) (_cache self)).

(** The states an in-process cache goes through. *)
Inductive reachable : MemoryCache -> Prop :=
| reach_new : forall ttl size, reachable (new_cache ttl size)
| reach_get : forall t1 t2 k c, reachable c -> reachable (snd (get t1 t2 k c))
| reach_set : forall t1 t2 k v ttl c, reachable c -> reachable (snd (set t1 t2 k v ttl c))
| reach_delete : forall k c, reachable c -> reachable (snd (delete k c))
| reach_clear : forall c, reachable c -> reachable (snd (clear c))
| reach_cleanup : forall now c, reachable c -> reachable (_cleanup_expired now c).

(** What every reachable state satisfies: the keys of the dictionary are
    distinct, and a cache of positive capacity is not over it. *)
Definition well_formed (c : MemoryCache) : Prop :=
  NoDup (Dict.keys (_cache c)) /\ (1 <= max_size c -> size c <= max_size c).

(** [BaseCache]: the interface [CacheManager] talks to. *)
Class BaseCache (C : Type) : Type := {
  cache_get : Q -> Q -> string -> C -> pyvalue * C;
  cache_set : Q -> Q -> string -> pyvalue -> option Z -> C -> bool * C;
  cache_delete : string -> C -> bool * C;
  cache_clear : C -> bool * C
}.

#[global] Instance MemoryCache_BaseCache : BaseCache MemoryCache := {
  cache_get := get;
  cache_set := set;
  cache_delete := delete;
  cache_clear := clear
}.

Record Stats : Type := {
  hits : Z;
  misses : Z;
  sets : Z;
  deletes : Z;
  errors : Z
}.

Record CacheManager (C : Type) : Type := {
  cache : C;
  stats : Stats
}.

Definition new_manager {C : Type} (backend : C) : CacheManager C :=
  {| cache := backend;
     stats := {| hits := 0; misses := 0; sets := 0; deletes := 0; errors := 0 |} |}.

Definition count_hit (s : Stats) : Stats :=
  {| hits := hits s + 1; misses := misses s; sets := sets s;
     deletes := deletes s; errors := errors s |}.

Definition count_miss (s : Stats) : Stats :=
  {| hits := hits s; misses := misses s + 1; sets := sets s;
     deletes := deletes s; errors := errors s |}.

Definition count_set (s : Stats) : Stats :=
  {| hits := hits s; misses := misses s; sets := sets s + 1;
     deletes := deletes s; errors := errors s |}.

(** [CacheManager.get]; the backends above do not raise, so the handler
    that counts an error is not reached. *)
Definition manager_get {C : Type} `{BaseCache C} (t1 t2 : Q) (k : string)
    (self : CacheManager C) : pyvalue * CacheManager C :=
  let (v, backend') := cache_get t1 t2 k (cache self) in
  (v,
   {| cache := backend';
      stats := if is_not_none v then count_hit (stats self)
               else count_miss (stats self) |}).

Definition manager_set {C : Type} `{BaseCache C} (t1 t2 : Q) (k : string)
    (v : pyvalue) (ttl : option Z) (self : CacheManager C) : bool * CacheManager C :=
  let (success, backend') := cache_set t1 t2 k v ttl (cache self) in
  (success,
   {| cache := backend';
      stats := if success then count_set (stats self) else stats self |}).

(** [hit_rate] of [get_stats], before rounding. *)
Definition hit_rate (s : Stats) : Q :=
  let total_requests := hits s + misses s in
  if 0 <? total_requests then (inject_Z (hits s) / inject_Z total_requests)%Q
  else 0%Q.

(** [CacheManager.delete] and [CacheManager.clear] *)
Definition count_delete (s : Stats) : Stats :=
  {| hits := hits s; misses := misses s; sets := sets s;
     deletes := deletes s + 1; errors := errors s |}.

Definition manager_delete {C : Type} `{BaseCache C} (k : string)
    (self : CacheManager C) : bool * CacheManager C :=
  let (success, backend') := cache_delete k (cache self) in
  (success,
   {| cache := backend';
      stats := if success then count_delete (stats self) else stats self |}).

Definition manager_clear {C : Type} `{BaseCache C} (self : CacheManager C)
  : bool * CacheManager C :=
  let (success, backend') := cache_clear (cache self) in
  (success, {| cache := backend'; stats := stats self |}).

(** [total_requests] of [get_stats] *)
Definition total_requests (s : Stats) : Z := hits s + misses s.

(** [CacheEntry.to_dict]: the serialised form.  A field is [None] when
    the dictionary lacks the key. *)
Record entry_dict : Type := {
  d_key : option string;
  d_value : option pyvalue;
  d_created_at : option Q;
  d_ttl_seconds : option Z;
  d_access_count : option Z;
  d_last_accessed : option Q
}.

Definition to_dict (e : CacheEntry) : entry_dict :=
  {| d_key := Some (key e); d_value := Some (value e);
     d_created_at := Some (created_at e); d_ttl_seconds := Some (ttl_seconds e);
     d_access_count := Some (access_count e);
     d_last_accessed := Some (last_accessed e) |}.

(** [CacheEntry.from_dict]; [None] is the KeyError of a missing mandatory
    key.  The constructor's two clock readings are overwritten. *)
Definition from_dict (t_created t_accessed : Q) (data : entry_dict)
  : option CacheEntry :=
  match d_key data, d_value data, d_ttl_seconds data with
  | Some k, Some v, Some ttl =>
      let entry := new_entry t_created t_accessed k v ttl in
      match d_created_at data with
      | None => None
      | Some created =>
          Some {| key := key entry; value := value entry;
                  created_at := created;
                  ttl_seconds := ttl_seconds entry;
                  access_count :=
                    match d_access_count data with Some n => n | None => 0 end;
                  last_accessed :=
                    match d_last_accessed data with Some t => t | None => created end |}
      end
  | _, _, _ => None
  end.

(** Repeated [get] of one key, one pair of clock readings per call: the
    values returned and the cache afterwards. *)
Fixpoint get_many (clocks : list (Q * Q)) (k : string) (self : MemoryCache)
  : list pyvalue * MemoryCache :=
  match clocks with
  | [] => ([], self)
  | (t1, t2) :: rest =>
      let (v, self1) := get t1 t2 k self in
      let (vs, self2) := get_many rest k self1 in
      (v :: vs, self2)
  end.

(** [MultiLevelCache]: a level-1 and a level-2 backend. *)
Module MultiLevelCache.

Record t (C1 C2 : Type) : Type := {
  l1_cache : C1;
  l2_cache : C2
}.

Section Ops.
Context {C1 C2 : Type} `{BaseCache C1} `{BaseCache C2}.

(** [get]: the clocks are those of [l1_cache.get], of [l2_cache.get] and of
    the promoting [l1_cache.set]. *)
Definition get (t1 t2 t3 t4 t5 t6 : Q) (k : string) (self : t C1 C2)
  : pyvalue * t C1 C2 :=
  let (value1, l1') := cache_get t1 t2 k (l1_cache self) in
  if is_not_none value1
  then (value1, {| l1_cache := l1'; l2_cache := l2_cache self |})
  else
    let (value2, l2') := cache_get t3 t4 k (l2_cache self) in
    if is_not_none value2
    then
      let (_, l1'') := cache_set t5 t6 k value2 None l1' in
      (value2, {| l1_cache := l1''; l2_cache := l2' |})
    else (PyNone, {| l1_cache := l1'; l2_cache := l2' |}).

Definition set (t1 t2 t3 t4 : Q) (k : string) (v : pyvalue) (ttl : option Z)
    (self : t C1 C2) : bool * t C1 C2 :=
  let (l1_success, l1') := cache_set t1 t2 k v ttl (l1_cache self) in
  let (l2_success, l2') := cache_set t3 t4 k v ttl (l2_cache self) in
  (l1_success && l2_success, {| l1_cache := l1'; l2_cache := l2' |}).

Definition delete (k : string) (self : t C1 C2) : bool * t C1 C2 :=
  let (l1_deleted, l1') := cache_delete k (l1_cache self) in
  let (l2_deleted, l2') := cache_delete k (l2_cache self) in
  (l1_deleted || l2_deleted, {| l1_cache := l1'; l2_cache := l2' |}).

Definition clear (self : t C1 C2) : bool * t C1 C2 :=
  let (l1_cleared, l1') := cache_clear (l1_cache self) in
  let (l2_cleared, l2') := cache_clear (l2_cache self) in
  (l1_cleared && l2_cleared, {| l1_cache := l1'; l2_cache := l2' |}).
End Ops.

End MultiLevelCache.

(** The wrapper built by the [cached] decorator, for one call: [cache_key]
    is the digest of the call's description and [result] what the wrapped
    function returns (it is called on a miss only).  [cache_manager] is
    [None] until a manager is attached to the wrapper. *)
Definition cached_wrapper {C : Type} `{BaseCache C} (t1 t2 t3 t4 : Q)
    (cache_manager : option (CacheManager C)) (cache_key : string)
    (ttl_seconds : option Z) (result : pyvalue)
  : pyvalue * option (CacheManager C) :=
  match cache_manager with
  | None => (result, None)
  | Some m =>
      let (cached_result, m1) := manager_get t1 t2 cache_key m in
      if is_not_none cached_result then (cached_result, Some m1)
      else
        let (_, m2) := manager_set t3 t4 cache_key result ttl_seconds m1 in
        (result, Some m2)
  end.

End Caching.

(** ** Concrete objects used to run the definitions *)

Module Examples.
Import EmbeddingEngine VectorSearch.
Open Scope string_scope.

Definition vaccine_safety : metadata_dict :=
  {| m_id := Some "1"; m_title := Some "COVID-19 Vaccine Safety";
     m_content := Some "COVID-19 vaccines are safe and effective according to health experts.";
     m_url := Some "https://example.com/vaccine-safety";
     m_source := Some "Health Ministry";
     m_published_date := None; m_author := None; m_tags := [];
     m_credibility_score := 0.5%R |}.

Definition digital_initiative : metadata_dict :=
  {| m_id := Some "2"; m_title := Some "Government Digital Initiative";
     m_content := Some "The government launched a new digital literacy program for citizens.";
     m_url := Some "https://example.com/digital-initiative";
     m_source := Some "PIB";
     m_published_date := None; m_author := None; m_tags := [];
     m_credibility_score := 0.5%R |}.

(** The largest single-precision float, the distance FAISS leaves in an
    unused result slot. *)
Definition flt_max : R := 340282346638528859811704183484516925440%R.

(** A FAISS result row has exactly [top_k] slots: the neighbours found,
    then slots of label -1. *)
Definition padded_row (found : list (Z * R)) (top_k : Z) : list (Z * R) :=
  firstn (Z.to_nat top_k) (found ++ repeat ((-1)%Z, flt_max) (Z.to_nat top_k)).

Definition faiss_returning (found : list (Z * R)) : faiss_index :=
  fun _ top_k => Some (padded_row found top_k).

(** An index holding the single vector of [vaccine_safety]. *)
Definition one_vector_index : FAISSVectorSearch :=
  {| dimension := 2; index := Some (faiss_returning [(0%Z, 0.5%R)]);
     metadata := [vaccine_safety]; id_to_idx := [("1", 0%Z)] |}.

(** An index holding two vectors. *)
Definition two_vector_index : FAISSVectorSearch :=
  {| dimension := 2;
     index := Some (faiss_returning [(0%Z, 0.5%R); (1%Z, 1%R)]);
     metadata := [vaccine_safety; digital_initiative];
     id_to_idx := [("1", 0%Z); ("2", 1%Z)] |}.

Definition empty_index : FAISSVectorSearch :=
  {| dimension := 2; index := Some (faiss_returning []);
     metadata := []; id_to_idx := [] |}.

Definition loaded_engine : TextEmbeddingEngine :=
  {| model := Some (fun _ => Some [1%R; 0%R]); embedding_dim := 2;
     embedding_cache := []; _get_text_hash := fun text => text |}.

Definition engine_without_model : TextEmbeddingEngine :=
  {| model := None; embedding_dim := 384;
     embedding_cache := []; _get_text_hash := fun text => text |}.

Definition two_record_retriever : EvidenceRetriever :=
  {| embedding_engine := loaded_engine; vector_search := two_vector_index |}.

(** The reranker.py retriever whose cross-encoder failed to load. *)
Definition reranker_without_model : Reranker.HybridRetriever :=
  {| Reranker.evidence_retriever := two_record_retriever;
     Reranker.cross_encoder := {| Reranker.model := None |} |}.

(** The vector_search.py retriever whose cross-encoder failed to load. *)
Definition hybrid_without_model : VectorSearch.HybridRetriever :=
  {| VectorSearch.evidence_retriever := two_record_retriever;
     VectorSearch.cross_encoder := None |}.

(** A side file written for dimension 768, with an index file beside it. *)
Definition files_of_dimension_768 : index_files :=
  {| index_path_exists := true; metadata_path_exists := true;
     read_index := Some (faiss_returning []);
     pickle_load := Some {| p_metadata := Some []; p_id_to_idx := Some [];
                            p_dimension := Some 768%Z |} |}.

Definition index_of_dimension_384 : FAISSVectorSearch :=
  {| dimension := 384; index := Some (faiss_returning []);
     metadata := []; id_to_idx := [] |}.

(** An article with a precomputed embedding and the id 3. *)
Definition new_article : article :=
  {| a_id := Some "3"; a_url := Some "https://example.com/misinformation";
     a_title := Some "Misinformation on Social Media";
     a_content := Some "Social media platforms are working to combat misinformation and fake news.";
     a_source := Some "FactCheck"; a_published_date := None; a_author := None;
     a_tags := None; a_credibility_score := None;
     a_embedding := Some [0%R; 1%R] |}.

(** The two stage-1 candidates of the two-record corpus. *)
Definition stage_one_candidates : list evidence :=
  [ make_evidence 0 (1 / (1 + 0.5))%R vaccine_safety;
    make_evidence 1 (1 / (1 + 1))%R digital_initiative ].

(** A cross-encoder that scores the first pair 2 and the second 1. *)
Definition scoring_model : cross_encoder_model := fun _ => Some [2%R; 1%R].

(** An in-process cache that may hold nothing. *)
Definition zero_capacity_cache : Caching.MemoryCache := Caching.new_cache 3600 0.

(** The cache of the scenario [max_size = 2; set(a); set(b)]. *)
Definition full_cache : Caching.MemoryCache :=
  snd (Caching.set 2 2 "b" (Caching.PyInt 2) None
         (snd (Caching.set 1 1 "a" (Caching.PyInt 1) None
                 (Caching.new_cache 3600 2)))).

(** A manager whose backend stores [None] under the key [k]. *)
Definition manager_holding_none : Caching.CacheManager Caching.MemoryCache :=
  snd (Caching.manager_set 1 1 "k" Caching.PyNone None
         (Caching.new_manager (Caching.new_cache 3600 10))).

End Examples.

(* ================================================================= *)
(** * Part II: properties                                             *)
(* ================================================================= *)

(** ** Score fusion *)

Section FusionFacts.
Import Fusion.
Open Scope R_scope.

Lemma py_min_Rmin (a b : R) : Py.min a b = Rmin a b.
Proof.
  unfold Py.min, Rmin.
  destruct (Rlt_dec b a), (Rle_dec a b); lra.
Qed.

Lemma py_max_Rmax (a b : R) : Py.max a b = Rmax a b.
Proof.
  unfold Py.max, Rmax.
  destruct (Rlt_dec a b), (Rle_dec a b); lra.
Qed.

Lemma clamp01_bounds (x : R) : 0 <= clamp01 x <= 1.
Proof.
  unfold clamp01, Rmax, Rmin.
  destruct (Rle_dec 1 x); destruct (Rle_dec 0 _); lra.
Qed.

Lemma clamp01_id (x : R) : 0 <= x <= 1 -> clamp01 x = x.
Proof.
  intros [H0 H1]. unfold clamp01, Rmax, Rmin.
  destruct (Rle_dec 1 x); destruct (Rle_dec 0 _); lra.
Qed.

Lemma clamp01_monotone (x y : R) : x <= y -> clamp01 x <= clamp01 y.
Proof.
  intros Hxy. unfold clamp01.
  apply Rle_max_compat_l, Rle_min_compat_l, Hxy.
Qed.

Lemma sigmoid_denominator_pos (x : R) : 0 < 1 + exp (- x).
Proof. pose proof (exp_pos (- x)). lra. Qed.

Lemma sigmoid_bounds (x : R) : 0 < sigmoid x < 1.
Proof.
  unfold sigmoid. pose proof (exp_pos (- x)) as He.
  split.
  - apply Rinv_0_lt_compat. lra.
  - rewrite <- Rinv_1 at 2. apply Rinv_lt_contravar; lra.
Qed.

Lemma exp_monotone (x y : R) : x <= y -> exp x <= exp y.
Proof.
  intros [Hlt | ->].
  - left. now apply exp_increasing.
  - right. reflexivity.
Qed.

Lemma sigmoid_monotone (x y : R) : x <= y -> sigmoid x <= sigmoid y.
Proof.
  intros Hxy. unfold sigmoid.
  apply Rinv_le_contravar.
  - apply sigmoid_denominator_pos.
  - apply Rplus_le_compat_l, exp_monotone. lra.
Qed.

(** The code computes the clamped weighted sum of the specification. *)
Lemma combine_scores_refines_spec (s r : R) :
  _combine_scores s r = fused_score_spec s r.
Proof.
  unfold _combine_scores, _combine_scores_weighted, fused_score_spec, clamp01,
    sigmoid, default_similarity_weight, default_rerank_weight.
  rewrite py_max_Rmax, py_min_Rmin.
  unfold Rdiv. now rewrite Rmult_1_l.
Qed.

(** For a similarity in [0,1] the clamp is the identity. *)
Lemma combine_scores_unclamped (s r : R) :
  0 <= s <= 1 -> _combine_scores s r = 0.3 * s + 0.7 * sigmoid r.
Proof.
  intros Hs. rewrite combine_scores_refines_spec. unfold fused_score_spec.
  apply clamp01_id. pose proof (sigmoid_bounds r). lra.
Qed.

(** C6. For every similarity score and rerank score, [_combine_scores] (of
    both rerankers) returns [0.3 * similarity + 0.7 * sigmoid(rerank)] with
    [sigmoid(x) = 1/(1+e^(-x))], clamped to [0,1]; the result lies in
    [0,1]. *)
Theorem combine_scores_formula (similarity_score rerank_score : R) :
  _combine_scores similarity_score rerank_score
    = Rmax 0 (Rmin 1 (0.3 * similarity_score
                      + 0.7 * (1 / (1 + exp (- rerank_score)))))
  /\ 0 <= _combine_scores similarity_score rerank_score <= 1.
Proof.
  split.
  - rewrite combine_scores_refines_spec.
    unfold fused_score_spec, clamp01, sigmoid, Rdiv. now rewrite Rmult_1_l.
  - rewrite combine_scores_refines_spec. apply clamp01_bounds.
Qed.

(** C7. If passage A has a similarity score and a rerank score both at least
    those of passage B, then A's combined score is at least B's, under the
    fixed weights 0.3 and 0.7. *)
Theorem combine_scores_monotone (sim_a rerank_a sim_b rerank_b : R) :
  sim_a >= sim_b ->
  rerank_a >= rerank_b ->
  _combine_scores sim_a rerank_a >= _combine_scores sim_b rerank_b.
Proof.
  intros Hs Hr. apply Rle_ge.
  rewrite !combine_scores_refines_spec. unfold fused_score_spec.
  apply clamp01_monotone.
  pose proof (@sigmoid_monotone rerank_b rerank_a ltac:(lra)).
  lra.
Qed.

Lemma combine_scores_monotone_witness :
  0.85 >= 0.75 /\ 2 >= 1 /\ _combine_scores 0.85 2 >= _combine_scores 0.75 1.
Proof.
  split; [lra|]. split; [lra|].
  apply combine_scores_monotone; lra.
Defined.

End FusionFacts.

(** ** The vector index *)

Section VectorIndexFacts.
Import EmbeddingEngine VectorSearch Examples.
Open Scope Z_scope.

Lemma py_index_some_bounds (A : Type) (l : list A) (i : Z) (x : A) :
  Py.index l i = Some x -> - Py.len l <= i < Py.len l.
Proof.
  unfold Py.index, Py.len. intros H.
  destruct (0 <=? i) eqn:Hi.
  - apply Z.leb_le in Hi.
    assert (Hn : (Z.to_nat i < List.length l)%nat).
    { apply nth_error_Some. congruence. }
    lia.
  - apply Z.leb_gt in Hi.
    destruct (0 <=? Z.of_nat (List.length l) + i) eqn:Hj; [|discriminate].
    apply Z.leb_le in Hj. lia.
Qed.

(** One iteration of the loop of [search] on a hit that passes the guard. *)
Lemma format_results_hit md idx distance m rest :
  idx < Py.len md ->
  (1 + distance <> 0)%R ->
  Py.index md idx = Some m ->
  format_results md ((idx, distance) :: rest)
  = option_map (cons (idx, (1 / (1 + distance))%R, m)) (format_results md rest).
Proof.
  intros Hlt Hd Hm. simpl.
  apply Z.ltb_lt in Hlt. rewrite Hlt.
  destruct (Req_EM_T (1 + distance) 0) as [E | _]; [contradiction|].
  rewrite Hm. now destruct (format_results md rest).
Qed.

(** What the guard [idx < len(self.metadata)] does ensure: a returned
    position is a subscript Python accepts, and the metadata beside it is
    the one stored there. *)
Lemma format_results_positions md hits results :
  format_results md hits = Some results ->
  Forall (fun r => - Py.len md <= fst (fst r) < Py.len md
                   /\ Py.index md (fst (fst r)) = Some (snd r)) results.
Proof.
  revert results. induction hits as [| [idx distance] rest IH]; simpl; intros results H.
  - injection H as <-. constructor.
  - destruct (idx <? Py.len md) eqn:Hlt; [| now apply IH].
    destruct (Req_EM_T (1 + distance) 0); [discriminate|].
    destruct (Py.index md idx) as [m |] eqn:Hm; [| discriminate].
    destruct (format_results md rest) as [results' |]; [| discriminate].
    injection H as <-. constructor.
    + simpl. split; [eapply py_index_some_bounds; eassumption | assumption].
    + now apply IH.
Qed.

Lemma search_positions self query_vector top_k :
  Forall (fun r => - Py.len (metadata self) <= fst (fst r) < Py.len (metadata self))
         (search self query_vector top_k).
Proof.
  unfold search.
  destruct (index self) as [faiss |]; [| constructor].
  destruct (faiss query_vector top_k) as [hits |]; [| constructor].
  destruct (format_results (metadata self) hits) as [results |] eqn:H; [| constructor].
  apply format_results_positions in H.
  eapply Forall_impl; [| exact H]. now intros r [Hr _].
Qed.

(** C1. The specification requires every position [search] returns to
    satisfy [0 <= position < len(metadata)], padding positions being
    filtered.  On an index holding one vector and asked for two neighbours,
    FAISS pads the second slot with the label -1; the guard
    [idx < len(self.metadata)] lets it through and [self.metadata[-1]]
    resolves to the last record, so the caller receives position -1. *)
Theorem search_returns_padding_position (query_vector : vector) :
  search one_vector_index query_vector 2
  = [ (0, (1 / (1 + 0.5))%R, vaccine_safety);
      (-1, (1 / (1 + flt_max))%R, vaccine_safety) ]
  /\ ~ Forall (fun r => 0 <= fst (fst r) < Py.len (metadata one_vector_index))
              (search one_vector_index query_vector 2).
Proof.
  assert (E : search one_vector_index query_vector 2
              = [ (0, (1 / (1 + 0.5))%R, vaccine_safety);
                  (-1, (1 / (1 + flt_max))%R, vaccine_safety) ]).
  { assert (Hrow : padded_row [(0, 0.5%R)] 2 = [(0, 0.5%R); (-1, flt_max)])
      by reflexivity.
    unfold search.
    change (index one_vector_index) with (Some (faiss_returning [(0, 0.5%R)])).
    change (metadata one_vector_index) with [vaccine_safety].
    unfold faiss_returning. cbv beta iota. rewrite Hrow.
    rewrite (@format_results_hit _ 0 _ vaccine_safety);
      [| reflexivity | lra | reflexivity].
    rewrite (@format_results_hit _ (-1) _ vaccine_safety);
      [| reflexivity | unfold flt_max; lra | reflexivity].
    reflexivity. }
  split; [exact E|].
  rewrite E. intros H.
  inversion H as [| ? ? _ H']; subst.
  inversion H' as [| ? ? [Hneg _] _]; subst.
  simpl in Hneg. lia.
Qed.

(** C2, as stated: a side file whose stored dimension differs from the
    configured one is rejected.  [load_index] has no such check. *)
Lemma load_index_accepts_dimension_mismatch :
  ~ (forall (files : index_files) (self : FAISSVectorSearch) loaded data d,
        index_path_exists files = true ->
        metadata_path_exists files = true ->
        read_index files = Some loaded ->
        pickle_load files = Some data ->
        p_dimension data = Some d ->
        d <> dimension self ->
        fst (load_index files self) = false).
Proof.
  intros H.
  specialize (H files_of_dimension_768 index_of_dimension_384 _ _ 768
                eq_refl eq_refl eq_refl eq_refl eq_refl).
  simpl in H. assert (768 <> 384) as Hne by lia.
  specialize (H Hne). discriminate.
Qed.

(** C2, amended. When both files exist and can be read, [load_index]
    reports success and the object takes the dimension stored in the side
    file, whatever dimension it was configured with (and keeps its own when
    the file records none). *)
Theorem load_index_adopts_stored_dimension
    (files : index_files) (self : FAISSVectorSearch) loaded data :
  index_path_exists files = true ->
  metadata_path_exists files = true ->
  read_index files = Some loaded ->
  pickle_load files = Some data ->
  fst (load_index files self) = true
  /\ dimension (snd (load_index files self))
     = or_default (p_dimension data) (dimension self)
  /\ metadata (snd (load_index files self)) = or_default (p_metadata data) []
  /\ index (snd (load_index files self)) = Some loaded.
Proof.
  intros Hi Hm Hr Hp. unfold load_index.
  rewrite Hi, Hm, Hr, Hp. simpl. repeat split.
Qed.

Lemma load_index_adopts_stored_dimension_witness :
  dimension index_of_dimension_384 = 384
  /\ fst (load_index files_of_dimension_768 index_of_dimension_384) = true
  /\ dimension (snd (load_index files_of_dimension_768 index_of_dimension_384)) = 768.
Proof.
  pose proof (@load_index_adopts_stored_dimension
                files_of_dimension_768 index_of_dimension_384 _ _
                eq_refl eq_refl eq_refl eq_refl) as [H1 [H2 _]].
  split; [reflexivity|]. split; [exact H1 | exact H2].
Defined.

End VectorIndexFacts.

(** ** The embedding engine and dense retrieval *)

Section RetrievalFacts.
Import EmbeddingEngine VectorSearch Examples.
Open Scope Z_scope.

(** C9. For every text, blank or not, [encode_text] returns [None] (and
    leaves the engine untouched) when the model failed to load; a blank text
    maps to the zero vector only under a loaded model, the availability
    check coming first. *)
Theorem encode_text_unavailable_before_blank
    (e : TextEmbeddingEngine) (text : string) (use_cache : bool) :
  (model e = None -> encode_text e text use_cache = (None, e))
  /\ (forall encode, model e = Some encode -> blank text = true ->
      encode_text e text use_cache = (Some (zeros (embedding_dim e)), e)).
Proof.
  unfold encode_text. split.
  - intros ->. reflexivity.
  - intros encode -> ->. reflexivity.
Qed.

Lemma encode_text_unavailable_before_blank_witness :
  model engine_without_model = None
  /\ blank "   " = true
  /\ encode_text engine_without_model "   " true = (None, engine_without_model)
  /\ encode_text loaded_engine "   " true = (Some [0%R; 0%R], loaded_engine).
Proof.
  split; [reflexivity|]. split; [reflexivity|]. split.
  - apply (proj1 (encode_text_unavailable_before_blank engine_without_model "   " true)).
    reflexivity.
  - apply (proj2 (encode_text_unavailable_before_blank loaded_engine "   " true)
             (fun _ => Some [1%R; 0%R])); reflexivity.
Defined.

Lemma Rgeb_true_iff (a b : R) : Py.Rgeb a b = true <-> (a >= b)%R.
Proof.
  unfold Py.Rgeb. destruct (Rle_dec b a); split; intros H;
    try reflexivity; try discriminate; lra.
Qed.

Lemma filter_results_threshold min_similarity results :
  Forall (fun e => (e_similarity_score e >= min_similarity)%R)
         (filter_results min_similarity results).
Proof.
  induction results as [| [[idx similarity] m] rest IH]; simpl.
  - constructor.
  - destruct (Py.Rgeb similarity min_similarity) eqn:H; [| exact IH].
    constructor; [| exact IH]. simpl. now apply Rgeb_true_iff.
Qed.

(** With no metadata the loop of [search] either skips a hit or raises. *)
Lemma format_results_no_metadata hits :
  format_results [] hits = Some [] \/ format_results [] hits = None.
Proof.
  induction hits as [| [idx distance] rest IH]; simpl.
  - now left.
  - destruct (idx <? Py.len (@nil metadata_dict)) eqn:Hlt; [| exact IH].
    destruct (Req_EM_T (1 + distance) 0); [now right|].
    replace (Py.index [] idx) with (@None metadata_dict); [now right|].
    unfold Py.index. destruct (0 <=? idx); [now destruct (Z.to_nat idx)|].
    destruct (0 <=? Py.len (@nil metadata_dict) + idx); [| reflexivity].
    now destruct (Z.to_nat _).
Qed.

Lemma search_empty_index self query_vector top_k :
  metadata self = [] -> search self query_vector top_k = [].
Proof.
  intros Hmd. unfold search. rewrite Hmd.
  destruct (index self) as [faiss |]; [| reflexivity].
  destruct (faiss query_vector top_k) as [hits |]; [| reflexivity].
  now destruct (format_results_no_metadata hits) as [-> | ->].
Qed.

(** C8. [retrieve_evidence] is total (every exception ends in the empty
    list); each record it returns has a similarity score at least
    [min_similarity]; and it returns the empty list when the query cannot be
    embedded, when the index holds no record and when there is no index. *)
Theorem retrieve_evidence_threshold_and_empty
    (self : EvidenceRetriever) (query : string) (top_k : Z) (min_similarity : R) :
  Forall (fun e => (e_similarity_score e >= min_similarity)%R)
         (fst (retrieve_evidence self query top_k min_similarity))
  /\ (fst (encode_text (embedding_engine self) query true) = None ->
      fst (retrieve_evidence self query top_k min_similarity) = [])
  /\ (metadata (vector_search self) = [] ->
      fst (retrieve_evidence self query top_k min_similarity) = [])
  /\ (index (vector_search self) = None ->
      fst (retrieve_evidence self query top_k min_similarity) = []).
Proof.
  unfold retrieve_evidence.
  destruct (encode_text (embedding_engine self) query true) as [[q |] engine']; simpl.
  - split; [apply filter_results_threshold|]. split; [discriminate|]. split.
    + intros Hmd. now rewrite search_empty_index.
    + intros Hidx. unfold search. now rewrite Hidx.
  - split; [constructor|]. repeat split.
Qed.

Lemma retrieve_evidence_threshold_and_empty_witness :
  fst (encode_text engine_without_model "vaccine" true) = None
  /\ metadata empty_index = []
  /\ fst (retrieve_evidence
            {| embedding_engine := engine_without_model;
               vector_search := two_vector_index |} "vaccine" 10 0%R) = []
  /\ fst (retrieve_evidence
            {| embedding_engine := loaded_engine;
               vector_search := empty_index |} "vaccine" 10 0%R) = [].
Proof.
  split; [reflexivity|]. split; [reflexivity|]. split.
  - apply (proj1 (proj2 (retrieve_evidence_threshold_and_empty
                           {| embedding_engine := engine_without_model;
                              vector_search := two_vector_index |}
                           "vaccine" 10 0%R))).
    reflexivity.
  - apply (proj1 (proj2 (proj2 (retrieve_evidence_threshold_and_empty
                                  {| embedding_engine := loaded_engine;
                                     vector_search := empty_index |}
                                  "vaccine" 10 0%R)))).
    reflexivity.
Defined.

End RetrievalFacts.

(** ** The two hybrid retrievers *)

Section HybridFacts.
Import EmbeddingEngine VectorSearch Examples.
Open Scope Z_scope.

(** *** Reranking neither adds nor alters a record

    Stated for any reading [f] of a record that ignores the four entries
    the rerankers write. *)
Section Projection.
Variable B : Type.
Variable f : evidence -> B.
Hypothesis f_with_scores : forall p r c, f (with_scores p r c) = f p.
Hypothesis f_with_ranking : forall p r m, f (with_ranking p r m) = f p.

Lemma map_enumerate_ranking method start (l : list evidence) :
  map f (map (fun ir => with_ranking (snd ir) (fst ir + 1) method)
             (Py.enumerate_from start l))
  = map f l.
Proof.
  revert start. induction l as [| x l IH]; intros start; simpl.
  - reflexivity.
  - now rewrite f_with_ranking, IH.
Qed.

Lemma map_add_ranking_metadata method (l : list evidence) :
  map f (add_ranking_metadata method l) = map f l.
Proof. apply map_enumerate_ranking. Qed.

Lemma map_score_passages passages scores scored :
  score_passages passages scores = Some scored -> map f scored = map f passages.
Proof.
  revert scores scored.
  induction passages as [| p rest IH]; intros scores scored H; simpl in H.
  - injection H as <-. reflexivity.
  - destruct scores as [| s scores']; [discriminate|].
    destruct (score_passages rest scores') as [scored' |] eqn:E; [| discriminate].
    injection H as <-. simpl. rewrite f_with_scores. f_equal. eapply IH, E.
Qed.
End Projection.

Lemma insert_desc_permutation (A : Type) (key : A -> R) x l :
  Permutation (Py.insert_desc key x l) (x :: l).
Proof.
  induction l as [| y l IH]; simpl.
  - reflexivity.
  - destruct (Py.Rltb (key x) (key y)).
    + rewrite IH. apply perm_swap.
    + reflexivity.
Qed.

Lemma sort_desc_permutation (A : Type) (key : A -> R) l :
  Permutation (Py.sort_desc key l) l.
Proof.
  induction l as [| x l IH]; simpl.
  - reflexivity.
  - rewrite insert_desc_permutation. now constructor.
Qed.

Lemma firstn_included (A : Type) n (l : list A) : incl (firstn n l) l.
Proof.
  revert n. induction l as [| x l IH]; intros [| n]; simpl.
  - apply incl_refl.
  - apply incl_refl.
  - apply incl_nil_l.
  - intros z [-> | Hz]; [now left | right; eapply IH, Hz].
Qed.

Lemma slice_to_included (A : Type) (l : list A) k : incl (Py.slice_to l k) l.
Proof. unfold Py.slice_to. destruct (0 <=? k); apply firstn_included. Qed.

Lemma truncate_included top_k l : incl (truncate top_k l) l.
Proof.
  destruct top_k as [k |]; simpl; [| apply incl_refl].
  destruct (k =? 0); [apply incl_refl | apply slice_to_included].
Qed.

Lemma rerank_body_included (B : Type) (f : evidence -> B)
    model query passages top_k reranked :
  (forall p r c, f (with_scores p r c) = f p) ->
  rerank_body model query passages top_k = Some reranked ->
  incl (map f reranked) (map f passages).
Proof.
  intros Hf. unfold rerank_body.
  destruct (query_passage_pairs query passages) as [pairs |]; [| discriminate].
  destruct (model pairs) as [scores |]; [| discriminate].
  destruct (score_passages passages scores) as [scored |] eqn:Hs; [| discriminate].
  intros H. injection H as <-.
  rewrite <- (map_score_passages f Hf _ _ Hs).
  apply incl_map.
  eapply incl_tran; [apply truncate_included|].
  intros x Hx. eapply Permutation_in; [apply sort_desc_permutation | exact Hx].
Qed.

Lemma rerank_with_cross_encoder_included (B : Type) (f : evidence -> B)
    model query passages top_k :
  (forall p r c, f (with_scores p r c) = f p) ->
  incl (map f (_rerank_with_cross_encoder model query passages top_k))
       (map f passages).
Proof.
  intros Hf. unfold _rerank_with_cross_encoder.
  destruct (rerank_body model query passages top_k) eqn:H.
  - eapply rerank_body_included; eassumption.
  - apply incl_refl.
Qed.

Lemma rerank_included (B : Type) (f : evidence -> B) self query passages top_k :
  (forall p r c, f (with_scores p r c) = f p) ->
  incl (map f (Reranker.rerank self query passages top_k)) (map f passages).
Proof.
  intros Hf. unfold Reranker.rerank.
  destruct (Reranker.model self) as [m |]; [| apply incl_refl].
  destruct passages as [| p rest]; [apply incl_refl|].
  destruct (rerank_body m query (p :: rest) top_k) eqn:H.
  - eapply rerank_body_included; eassumption.
  - apply incl_refl.
Qed.

(** C5. Every id in the output of [retrieve_and_rerank], in vector_search.py
    and in reranker.py, is the id of a stage-1 candidate, that is of a
    record [retrieve_evidence] returns for the same query with
    [top_k = initial_top_k] and the same threshold. *)
Theorem rerank_recall_containment
    (query : string) (initial_top_k final_top_k : Z) (min_similarity : R) :
  (forall self : VectorSearch.HybridRetriever,
      incl (map e_id (fst (VectorSearch.retrieve_and_rerank self query
                             initial_top_k final_top_k min_similarity)))
           (map e_id (fst (retrieve_evidence (VectorSearch.evidence_retriever self)
                             query initial_top_k min_similarity))))
  /\ (forall self : Reranker.HybridRetriever,
      incl (map e_id (fst (Reranker.retrieve_and_rerank self query
                             initial_top_k final_top_k min_similarity)))
           (map e_id (fst (retrieve_evidence (Reranker.evidence_retriever self)
                             query initial_top_k min_similarity)))).
Proof.
  split; intros self.
  - unfold VectorSearch.retrieve_and_rerank.
    destruct (retrieve_evidence _ query initial_top_k min_similarity)
      as [[| c candidates] retriever']; simpl fst.
    + apply incl_refl.
    + rewrite (map_add_ranking_metadata e_id) by reflexivity.
      destruct (VectorSearch.cross_encoder self) as [model |].
      * apply rerank_with_cross_encoder_included. reflexivity.
      * apply incl_map, slice_to_included.
  - unfold Reranker.retrieve_and_rerank.
    destruct (retrieve_evidence _ query initial_top_k min_similarity)
      as [[| c candidates] retriever']; simpl fst.
    + apply incl_refl.
    + rewrite (map_add_ranking_metadata e_id) by reflexivity.
      apply rerank_included. reflexivity.
Qed.

End HybridFacts.

(** ** Degradation when the cross-encoder is not loaded *)

Section DegradationFacts.
Import EmbeddingEngine VectorSearch Examples.
Open Scope Z_scope.

Lemma hybrid_retrieve_and_rerank_fst
    (self : VectorSearch.HybridRetriever) query initial_top_k final_top_k min_similarity :
  fst (VectorSearch.retrieve_and_rerank self query initial_top_k final_top_k min_similarity)
  = match fst (retrieve_evidence (VectorSearch.evidence_retriever self) query
                 initial_top_k min_similarity) with
    | [] => []
    | c :: candidates =>
        add_ranking_metadata
          (match VectorSearch.cross_encoder self with
           | Some _ => hybrid_dense_crossencoder
           | None => dense_only
           end)
          (match VectorSearch.cross_encoder self with
           | Some model =>
               _rerank_with_cross_encoder model query (c :: candidates) (Some final_top_k)
           | None => Py.slice_to (c :: candidates) final_top_k
           end)
    end.
Proof.
  unfold VectorSearch.retrieve_and_rerank.
  now destruct (retrieve_evidence _ query initial_top_k min_similarity) as [[| c l] r].
Qed.

Lemma reranker_retrieve_and_rerank_fst
    (self : Reranker.HybridRetriever) query initial_top_k final_top_k min_similarity :
  fst (Reranker.retrieve_and_rerank self query initial_top_k final_top_k min_similarity)
  = match fst (retrieve_evidence (Reranker.evidence_retriever self) query
                 initial_top_k min_similarity) with
    | [] => []
    | c :: candidates =>
        add_ranking_metadata hybrid_dense_crossencoder
          (Reranker.rerank (Reranker.cross_encoder self) query (c :: candidates)
             (Some final_top_k))
    end.
Proof.
  unfold Reranker.retrieve_and_rerank.
  now destruct (retrieve_evidence _ query initial_top_k min_similarity) as [[| c l] r].
Qed.

Lemma slice_to_nil (A : Type) k : Py.slice_to (@nil A) k = [].
Proof. unfold Py.slice_to. destruct (0 <=? k); apply firstn_nil. Qed.

Lemma add_ranking_metadata_tagged method l :
  Forall (fun r => e_ranking_method r = Some method) (add_ranking_metadata method l).
Proof.
  unfold add_ranking_metadata. generalize 0.
  induction l as [| x l IH]; intros start; simpl; constructor.
  - reflexivity.
  - apply IH.
Qed.

(** In vector_search.py the missing cross-encoder gives the stage-1 list,
    cut at [final_top_k], numbered and tagged [dense_only]. *)
Lemma hybrid_dense_only_fallback
    (self : VectorSearch.HybridRetriever) query initial_top_k final_top_k min_similarity :
  VectorSearch.cross_encoder self = None ->
  let stage_one := fst (retrieve_evidence (VectorSearch.evidence_retriever self)
                          query initial_top_k min_similarity) in
  let results := fst (VectorSearch.retrieve_and_rerank self query
                        initial_top_k final_top_k min_similarity) in
  results = add_ranking_metadata dense_only (Py.slice_to stage_one final_top_k)
  /\ map e_id results = map e_id (Py.slice_to stage_one final_top_k)
  /\ map e_similarity_score results
     = map e_similarity_score (Py.slice_to stage_one final_top_k)
  /\ Forall (fun r => e_ranking_method r = Some dense_only) results.
Proof.
  intros Hce stage_one results.
  assert (E : results = add_ranking_metadata dense_only
                          (Py.slice_to stage_one final_top_k)).
  { subst results stage_one. rewrite hybrid_retrieve_and_rerank_fst, Hce.
    destruct (fst (retrieve_evidence _ query initial_top_k min_similarity)).
    - now rewrite slice_to_nil.
    - reflexivity. }
  rewrite E. split; [reflexivity|]. split; [| split].
  - now apply map_add_ranking_metadata.
  - now apply map_add_ranking_metadata.
  - apply add_ranking_metadata_tagged.
Qed.

(** Stage 1 on the two-record corpus, asked for two neighbours. *)
Lemma stage_one_of_two_records :
  fst (retrieve_evidence two_record_retriever "vaccine" 2 0%R)
  = [ make_evidence 0 (1 / (1 + 0.5))%R vaccine_safety;
      make_evidence 1 (1 / (1 + 1))%R digital_initiative ].
Proof.
  assert (Henc : encode_text (embedding_engine two_record_retriever) "vaccine" true
                 = (Some [1%R; 0%R],
                    with_embedding_cache loaded_engine [("vaccine"%string, [1%R; 0%R])]))
    by reflexivity.
  assert (Hrow : padded_row [(0, 0.5%R); (1, 1%R)] 2 = [(0, 0.5%R); (1, 1%R)])
    by reflexivity.
  unfold retrieve_evidence. rewrite Henc. cbv beta iota. unfold fst at 1.
  unfold search.
  change (index (vector_search two_record_retriever))
    with (Some (faiss_returning [(0, 0.5%R); (1, 1%R)])).
  change (metadata (vector_search two_record_retriever))
    with [vaccine_safety; digital_initiative].
  unfold faiss_returning. cbv beta iota. rewrite Hrow.
  rewrite (@format_results_hit _ 0 _ vaccine_safety);
    [| reflexivity | lra | reflexivity].
  rewrite (@format_results_hit _ 1 _ digital_initiative);
    [| reflexivity | lra | reflexivity].
  simpl.
  rewrite !(proj2 (Rgeb_true_iff _ _)); [reflexivity | lra | lra].
Qed.

(** C3. The specification requires that with the cross-encoder not loaded
    [retrieve_and_rerank] returns the stage-1 list cut at [final_top_k] and
    tagged [dense_only].  On the two-record corpus with [final_top_k = 1],
    the retriever of vector_search.py does so, while the retriever of
    reranker.py returns both candidates, tagged
    [hybrid_dense_crossencoder]. *)
Theorem reranker_hybrid_ignores_missing_model :
  Reranker.model (Reranker.cross_encoder reranker_without_model) = None
  /\ fst (Reranker.retrieve_and_rerank reranker_without_model "vaccine" 2 1 0%R)
     = [ with_ranking (make_evidence 0 (1 / (1 + 0.5))%R vaccine_safety)
           1 hybrid_dense_crossencoder;
         with_ranking (make_evidence 1 (1 / (1 + 1))%R digital_initiative)
           2 hybrid_dense_crossencoder ]
  /\ fst (VectorSearch.retrieve_and_rerank hybrid_without_model "vaccine" 2 1 0%R)
     = [ with_ranking (make_evidence 0 (1 / (1 + 0.5))%R vaccine_safety)
           1 dense_only ].
Proof.
  split; [reflexivity|]. split.
  - rewrite reranker_retrieve_and_rerank_fst.
    change (Reranker.evidence_retriever reranker_without_model)
      with two_record_retriever.
    rewrite stage_one_of_two_records. reflexivity.
  - rewrite hybrid_retrieve_and_rerank_fst.
    change (VectorSearch.evidence_retriever hybrid_without_model)
      with two_record_retriever.
    rewrite stage_one_of_two_records. reflexivity.
Qed.

End DegradationFacts.

(** ** The in-process cache *)

Section CachingFacts.
Import Caching Examples.
Open Scope Z_scope.

Lemma Qltb_true_iff (a b : Q) : Qltb a b = true <-> (a < b)%Q.
Proof.
  unfold Qltb. rewrite negb_true_iff, <- not_true_iff_false, Qle_bool_iff.
  split; [apply Qnot_le_lt | apply Qlt_not_le].
Qed.

Lemma Qltb_false_iff (a b : Q) : Qltb a b = false <-> (b <= a)%Q.
Proof.
  unfold Qltb. rewrite negb_false_iff. apply Qle_bool_iff.
Qed.

(** *** Dictionaries *)

Section DictFacts.
Variable V : Type.
Implicit Types (d : Dict.t V) (k : string) (v : V).

Lemma dict_get_in k v d : Dict.get k d = Some v -> In (k, v) d.
Proof.
  induction d as [| [k' v'] d IH]; simpl; [discriminate|].
  destruct (String.eqb_spec k k') as [-> | Hne].
  - intros [= ->]. now left.
  - intros H. right. now apply IH.
Qed.

Lemma dict_in_get k v d : NoDup (Dict.keys d) -> In (k, v) d -> Dict.get k d = Some v.
Proof.
  induction d as [| [k' v'] d IH]; simpl; [intros _ []|].
  intros Hnd [[= -> ->] | Hin].
  - now rewrite String.eqb_refl.
  - inversion Hnd as [| ? ? Hnotin Hnd']; subst.
    destruct (String.eqb_spec k k') as [-> | Hne]; [| now apply IH].
    exfalso. apply Hnotin. change k' with (fst (k', v)). now apply in_map.
Qed.

Lemma dict_keys_set_in k v d :
  forall x, In x (Dict.keys (Dict.set k v d)) -> x = k \/ In x (Dict.keys d).
Proof.
  induction d as [| [k' v'] d IH]; simpl; intros x.
  - intros [<- | []]. now left.
  - destruct (String.eqb_spec k k') as [-> | Hne]; simpl.
    + intros [<- | H]; right; [now left | now right].
    + intros [<- | H]; [right; now left|].
      destruct (IH _ H) as [-> | H']; [now left | right; now right].
Qed.

Lemma dict_set_nodup k v d : NoDup (Dict.keys d) -> NoDup (Dict.keys (Dict.set k v d)).
Proof.
  induction d as [| [k' v'] d IH]; simpl; intros Hnd.
  - repeat constructor. intros [].
  - inversion Hnd as [| ? ? Hnotin Hnd']; subst.
    destruct (String.eqb_spec k k') as [-> | Hne]; simpl.
    + now constructor.
    + constructor; [| now apply IH].
      intros H. destruct (dict_keys_set_in _ _ _ _ H) as [-> | H']; congruence.
Qed.

Lemma dict_keys_del_in k d :
  forall x, In x (Dict.keys (Dict.del k d)) -> In x (Dict.keys d).
Proof.
  induction d as [| [k' v'] d IH]; simpl; intros x; [easy|].
  destruct (String.eqb k k'); simpl.
  - now right.
  - intros [<- | H]; [now left | right; now apply IH].
Qed.

Lemma dict_del_nodup k d : NoDup (Dict.keys d) -> NoDup (Dict.keys (Dict.del k d)).
Proof.
  induction d as [| [k' v'] d IH]; simpl; intros Hnd; [constructor|].
  inversion Hnd as [| ? ? Hnotin Hnd']; subst.
  destruct (String.eqb k k'); simpl; [assumption|].
  constructor; [| now apply IH].
  intros H. apply Hnotin. eapply dict_keys_del_in, H.
Qed.

Lemma dict_filter_nodup (keep : string * V -> bool) d :
  NoDup (Dict.keys d) -> NoDup (Dict.keys (filter keep d)).
Proof.
  induction d as [| [k' v'] d IH]; simpl; intros Hnd; [constructor|].
  inversion Hnd as [| ? ? Hnotin Hnd']; subst.
  destruct (keep (k', v')); simpl; [| now apply IH].
  constructor; [| now apply IH].
  intros H. apply Hnotin. unfold Dict.keys in *.
  apply in_map_iff in H as [[k0 v0] [E Hin]]. apply filter_In in Hin as [Hin _].
  apply in_map_iff. now exists (k0, v0).
Qed.

Lemma dict_set_length k v d :
  Py.len (Dict.set k v d) = if Dict.mem k d then Py.len d else Py.len d + 1.
Proof.
  unfold Py.len, Dict.mem.
  induction d as [| [k' v'] d IH]; simpl List.length; simpl Dict.get.
  - reflexivity.
  - simpl Dict.set. destruct (String.eqb k k'); simpl List.length; [reflexivity|].
    destruct (Dict.get k d); lia.
Qed.

Lemma dict_del_length k v d :
  Dict.get k d = Some v -> Py.len (Dict.del k d) = Py.len d - 1.
Proof.
  unfold Py.len.
  induction d as [| [k' v'] d IH]; simpl Dict.get; [discriminate|].
  simpl Dict.del. destruct (String.eqb k k'); simpl List.length.
  - lia.
  - intros H. specialize (IH H). lia.
Qed.

Lemma dict_get_del_other k k' d :
  k' <> k -> Dict.get k' (Dict.del k d) = Dict.get k' d.
Proof.
  intros Hne. induction d as [| [k0 v0] d IH]; simpl; [reflexivity|].
  destruct (String.eqb_spec k k0) as [-> | Hk].
  - destruct (String.eqb_spec k' k0); [contradiction | reflexivity].
  - simpl. now rewrite IH.
Qed.

Lemma dict_get_none_notin k d : Dict.get k d = None <-> ~ In k (Dict.keys d).
Proof.
  induction d as [| [k0 v0] d IH]; simpl; [easy|].
  destruct (String.eqb_spec k k0) as [-> | Hk].
  - split; [discriminate | intros H; exfalso; apply H; now left].
  - rewrite IH. split; [intros H [E | Hin]; congruence | tauto].
Qed.

Lemma dict_get_del_same k d :
  NoDup (Dict.keys d) -> Dict.get k (Dict.del k d) = None.
Proof.
  induction d as [| [k0 v0] d IH]; simpl; intros Hnd; [reflexivity|].
  inversion Hnd as [| ? ? Hnotin Hnd']; subst.
  destruct (String.eqb_spec k k0) as [-> | Hk].
  - now apply dict_get_none_notin.
  - simpl. destruct (String.eqb_spec k k0); [contradiction | now apply IH].
Qed.
End DictFacts.

Lemma dict_del_length_le (V : Type) k (d : Dict.t V) :
  Py.len (Dict.del k d) <= Py.len d.
Proof.
  unfold Py.len. induction d as [| [k' v'] d IH]; simpl Dict.del; [lia|].
  destruct (String.eqb k k'); simpl List.length; lia.
Qed.

Lemma filter_length_le (A : Type) (keep : A -> bool) (l : list A) :
  Py.len (filter keep l) <= Py.len l.
Proof.
  unfold Py.len. induction l as [| x l IH]; simpl; [lia|].
  destruct (keep x); simpl List.length; lia.
Qed.

(** *** Least recently accessed entry *)

Lemma min_last_accessed_in best rest :
  In (min_last_accessed best rest) (best :: rest).
Proof.
  revert best. induction rest as [| x rest IH]; intros best; simpl.
  - now left.
  - destruct (Qltb (last_accessed (snd x)) (last_accessed (snd best))).
    + right. apply IH.
    + destruct (IH best) as [E | Hin]; [left; exact E | right; right; exact Hin].
Qed.

Lemma min_last_accessed_le best rest x :
  In x (best :: rest) ->
  (last_accessed (snd (min_last_accessed best rest)) <= last_accessed (snd x))%Q.
Proof.
  revert best x. induction rest as [| y rest IH]; intros best x Hin.
  - destruct Hin as [<- | []]. simpl. apply Qle_refl.
  - simpl.
    destruct (Qltb (last_accessed (snd y)) (last_accessed (snd best))) eqn:Hlt.
    + apply Qltb_true_iff in Hlt.
      destruct Hin as [<- | Hin].
      * eapply Qle_trans; [apply (IH y y); now left|]. now apply Qlt_le_weak.
      * now apply IH.
    + apply Qltb_false_iff in Hlt.
      destruct Hin as [<- | [<- | Hin]].
      * apply IH. now left.
      * eapply Qle_trans; [apply (IH best best); now left | exact Hlt].
      * apply IH. now right.
Qed.

(** On a non-empty dictionary [_evict_lru] deletes one key, whose entry has
    the smallest [last_accessed]. *)
Lemma lru_key_spec (c : MemoryCache) :
  NoDup (Dict.keys (_cache c)) ->
  0 < size c ->
  exists victim entry,
    lru_key c = Some victim
    /\ Dict.get victim (_cache c) = Some entry
    /\ forall k' e', Dict.get k' (_cache c) = Some e' ->
                    (last_accessed entry <= last_accessed e')%Q.
Proof.
  unfold lru_key, size, Py.len. intros Hnd Hsize.
  destruct (_cache c) as [| first rest] eqn:Hc; [simpl in Hsize; lia|].
  destruct (min_last_accessed first rest) as [victim entry] eqn:Hmin.
  exists victim, entry. split; [reflexivity|]. split.
  - apply dict_in_get; [exact Hnd|]. rewrite <- Hmin. apply min_last_accessed_in.
  - intros k' e' Hget. apply dict_get_in in Hget.
    change entry with (snd (victim, entry)). rewrite <- Hmin.
    change e' with (snd (k', e')). now apply min_last_accessed_le.
Qed.

(** *** Invariants of the reachable states *)

Lemma evict_lru_well_formed c :
  NoDup (Dict.keys (_cache c)) -> NoDup (Dict.keys (_cache (_evict_lru c))).
Proof.
  intros Hnd. unfold _evict_lru. destruct (lru_key c); [| exact Hnd].
  simpl. now apply dict_del_nodup.
Qed.

Lemma evict_lru_size c :
  NoDup (Dict.keys (_cache c)) -> 0 < size c -> size (_evict_lru c) = size c - 1.
Proof.
  intros Hnd Hsize.
  destruct (lru_key_spec c Hnd Hsize) as (victim & entry & Hk & Hget & _).
  unfold _evict_lru. rewrite Hk. unfold size. simpl.
  eapply dict_del_length, Hget.
Qed.

Lemma set_well_formed t1 t2 k v ttl c :
  well_formed c -> well_formed (snd (set t1 t2 k v ttl c)).
Proof.
  intros [Hnd Hsize]. unfold set. cbv zeta. unfold snd.
  split.
  - simpl. apply dict_set_nodup.
    destruct (max_size c <=? size c); [now apply evict_lru_well_formed | exact Hnd].
  - assert (Hm : max_size (if max_size c <=? size c then _evict_lru c else c)
                 = max_size c).
    { destruct (max_size c <=? size c); [| reflexivity].
      unfold _evict_lru. now destruct (lru_key c). }
    simpl max_size. rewrite Hm. intros H1. specialize (Hsize H1).
    unfold size. simpl _cache. rewrite dict_set_length.
    fold (size (if max_size c <=? size c then _evict_lru c else c)).
    assert (size (if max_size c <=? size c then _evict_lru c else c) + 1
            <= max_size c).
    { destruct (max_size c <=? size c) eqn:Hfull.
      - apply Z.leb_le in Hfull. rewrite evict_lru_size; [lia | exact Hnd | lia].
      - apply Z.leb_gt in Hfull. lia. }
    unfold size in *. destruct (Dict.mem k _); lia.
Qed.

Lemma get_well_formed t1 t2 k c :
  well_formed c -> well_formed (snd (get t1 t2 k c)).
Proof.
  intros [Hnd Hsize]. unfold get.
  destruct (Dict.get k (_cache c)) as [entry |] eqn:Hget; [| now split].
  destruct (negb (is_expired t1 entry)).
  - split; simpl.
    + now apply dict_set_nodup.
    + intros H1. unfold size. simpl. rewrite dict_set_length.
      unfold Dict.mem. rewrite Hget. now apply Hsize.
  - destruct (is_expired t2 entry); [| now split].
    split; simpl.
    + now apply dict_del_nodup.
    + intros H1. unfold size. simpl.
      pose proof (dict_del_length_le k (_cache c)). specialize (Hsize H1).
      unfold size in Hsize. lia.
Qed.

Lemma reachable_well_formed c : reachable c -> well_formed c.
Proof.
  induction 1 as [ttl sz | t1 t2 k c _ IH | t1 t2 k v ttl c _ IH
                  | k c _ IH | c _ IH | now c _ IH].
  - split; simpl; [constructor | unfold size, Py.len; simpl; lia].
  - now apply get_well_formed.
  - now apply set_well_formed.
  - destruct IH as [Hnd Hsize]. unfold delete.
    destruct (Dict.mem k (_cache c)); [| now split].
    split; simpl.
    + now apply dict_del_nodup.
    + intros H1. unfold size. simpl.
      pose proof (dict_del_length_le k (_cache c)). specialize (Hsize H1).
      unfold size in Hsize. lia.
  - split; simpl; [constructor | unfold size, Py.len; simpl; lia].
  - destruct IH as [Hnd Hsize]. split; simpl.
    + now apply dict_filter_nodup.
    + intros H1. unfold size. simpl.
      pose proof (filter_length_le (fun kv => negb (is_expired now (snd kv)))
                    (_cache c)).
      specialize (Hsize H1). unfold size in Hsize. lia.
Qed.

Lemma set_max_size t1 t2 k v ttl c :
  max_size (snd (set t1 t2 k v ttl c)) = max_size c.
Proof.
  unfold set. simpl. destruct (max_size c <=? size c); [| reflexivity].
  unfold _evict_lru. now destruct (lru_key c).
Qed.

(** The scenario of the specification: [max_size = 2], then [set(a)],
    [set(b)], [set(c)]: [a] is evicted, [b] and [c] stay. *)
Example lru_scenario :
  let c := snd (set 3 3 "c" (PyInt 3) None full_cache) in
  Dict.keys (_cache c) = ["b"; "c"]%string
  /\ fst (get 4 4 "a" c) = PyNone
  /\ fst (get 4 4 "b" c) = PyInt 2
  /\ fst (get 4 4 "c" c) = PyInt 3.
Proof. vm_compute. repeat split. Qed.

(** C4, as stated: on a cache whose size has reached [max_size], [set]
    evicts exactly one entry and leaves at most [max_size] entries.  A cache
    built with [max_size = 0] is empty and has reached its capacity:
    [_evict_lru] finds nothing to evict and the insert leaves one entry. *)
Lemma set_on_zero_capacity_cache_overflows :
  reachable zero_capacity_cache
  /\ max_size zero_capacity_cache <= size zero_capacity_cache
  /\ _evict_lru zero_capacity_cache = zero_capacity_cache
  /\ size (snd (set 1 1 "a" (PyInt 1) None zero_capacity_cache)) = 1
  /\ ~ (size (snd (set 1 1 "a" (PyInt 1) None zero_capacity_cache))
        <= max_size zero_capacity_cache).
Proof.
  split; [apply reach_new|].
  split; [vm_compute; discriminate|].
  split; [reflexivity|].
  split; [reflexivity|].
  vm_compute. intros H. now apply H.
Qed.

(** C4, amended. For a cache of capacity [max_size >= 1] in a state its
    operations can reach, a [set] issued when the size has reached
    [max_size] first evicts exactly one entry, one whose [last_accessed] is
    smallest among all entries at that time, then inserts; afterwards the
    size does not exceed [max_size]. *)
Theorem set_evicts_least_recently_accessed
    (t_created t_accessed : Q) (k : string) (v : pyvalue) (ttl : option Z)
    (c : MemoryCache) :
  reachable c ->
  1 <= max_size c ->
  max_size c <= size c ->
  exists victim entry,
    Dict.get victim (_cache c) = Some entry
    /\ (forall k' e', Dict.get k' (_cache c) = Some e' ->
                     (last_accessed entry <= last_accessed e')%Q)
    /\ _evict_lru c = with_cache c (Dict.del victim (_cache c))
    /\ size (_evict_lru c) = size c - 1
    /\ Dict.get victim (_cache (_evict_lru c)) = None
    /\ (forall k', k' <> victim ->
                  Dict.get k' (_cache (_evict_lru c)) = Dict.get k' (_cache c))
    /\ snd (set t_created t_accessed k v ttl c)
       = with_cache c
           (Dict.set k
              (new_entry t_created t_accessed k v (ttl_or_default ttl (default_ttl c)))
              (Dict.del victim (_cache c)))
    /\ size (snd (set t_created t_accessed k v ttl c)) <= max_size c.
Proof.
  intros Hreach Hcap Hfull.
  pose proof (reachable_well_formed Hreach) as Hwf.
  pose proof (set_well_formed t_created t_accessed k v ttl Hwf) as [_ Hafter].
  destruct Hwf as [Hnd Hsize].
  assert (Hpos : 0 < size c) by lia.
  destruct (lru_key_spec c Hnd Hpos) as (victim & entry & Hk & Hget & Hmin).
  assert (Hev : _evict_lru c = with_cache c (Dict.del victim (_cache c))).
  { unfold _evict_lru. now rewrite Hk. }
  exists victim, entry.
  split; [exact Hget|]. split; [exact Hmin|]. split; [exact Hev|].
  split; [now apply evict_lru_size|].
  split; [rewrite Hev; simpl; now apply dict_get_del_same|].
  split; [intros k' Hne; rewrite Hev; simpl; now apply dict_get_del_other|].
  split.
  - unfold set. cbv zeta. unfold snd.
    apply Z.leb_le in Hfull. rewrite Hfull, Hev. reflexivity.
  - rewrite set_max_size in Hafter. apply Hafter. exact Hcap.
Qed.

Lemma set_evicts_least_recently_accessed_witness :
  reachable full_cache
  /\ 1 <= max_size full_cache
  /\ max_size full_cache <= size full_cache
  /\ size (snd (set 3 3 "c" (PyInt 3) None full_cache)) <= max_size full_cache.
Proof.
  assert (Hr : reachable full_cache) by (apply reach_set, reach_set, reach_new).
  assert (H1 : 1 <= max_size full_cache) by (vm_compute; discriminate).
  assert (H2 : max_size full_cache <= size full_cache) by (vm_compute; discriminate).
  destruct (@set_evicts_least_recently_accessed 3 3 "c" (PyInt 3) None full_cache
              Hr H1 H2) as (victim & entry & _ & _ & _ & _ & _ & _ & _ & Hsize).
  repeat split; assumption.
Defined.

(** *** The cache manager *)

Lemma manager_get_accounting (C : Type) `{BaseCache C} t1 t2 k (m : CacheManager C) :
  fst (manager_get t1 t2 k m) = fst (cache_get t1 t2 k (cache m))
  /\ stats (snd (manager_get t1 t2 k m))
     = if is_not_none (fst (cache_get t1 t2 k (cache m)))
       then count_hit (stats m) else count_miss (stats m).
Proof.
  unfold manager_get. now destruct (cache_get t1 t2 k (cache m)).
Qed.

Lemma get_of_cached_none t1 t2 k c entry :
  Dict.get k (_cache c) = Some entry -> value entry = PyNone ->
  fst (get t1 t2 k c) = PyNone.
Proof.
  intros Hget Hv. unfold get. rewrite Hget.
  destruct (negb (is_expired t1 entry)); [exact Hv|].
  now destruct (is_expired t2 entry).
Qed.

Lemma get_of_absent_key t1 t2 k c :
  Dict.get k (_cache c) = None -> get t1 t2 k c = (PyNone, c).
Proof. intros Hget. unfold get. now rewrite Hget. Qed.

(** C10. When the value stored under a key is [None], [CacheManager.get]
    returns [None] and counts a miss, not a hit, whether the entry has
    expired or not; a manager with the same counters whose backend lacks the
    key returns the same value and ends with the same counters. *)
Theorem manager_get_of_cached_none
    (t1 t2 : Q) (k : string) (m : CacheManager MemoryCache) (entry : CacheEntry) :
  Dict.get k (_cache (cache m)) = Some entry ->
  value entry = PyNone ->
  fst (manager_get t1 t2 k m) = PyNone
  /\ misses (stats (snd (manager_get t1 t2 k m))) = misses (stats m) + 1
  /\ hits (stats (snd (manager_get t1 t2 k m))) = hits (stats m)
  /\ hit_rate (stats (snd (manager_get t1 t2 k m)))
     = hit_rate (count_miss (stats m))
  /\ forall m' : CacheManager MemoryCache,
       stats m' = stats m ->
       Dict.get k (_cache (cache m')) = None ->
       fst (manager_get t1 t2 k m') = fst (manager_get t1 t2 k m)
       /\ stats (snd (manager_get t1 t2 k m')) = stats (snd (manager_get t1 t2 k m)).
Proof.
  intros Hget Hv.
  destruct (manager_get_accounting t1 t2 k m) as [Hfst Hstats].
  simpl cache_get in Hfst, Hstats.
  rewrite (get_of_cached_none t1 t2 k (cache m) Hget Hv) in Hfst, Hstats.
  simpl in Hstats. rewrite Hfst, Hstats.
  repeat split; try reflexivity.
  - destruct (manager_get_accounting t1 t2 k m') as [Hfst' _].
    simpl cache_get in Hfst'. now rewrite Hfst', get_of_absent_key.
  - destruct (manager_get_accounting t1 t2 k m') as [_ Hstats'].
    simpl cache_get in Hstats'. rewrite Hstats', get_of_absent_key by assumption.
    simpl. congruence.
Qed.

Lemma manager_get_of_cached_none_witness :
  Dict.get "k" (_cache (cache manager_holding_none))
  = Some (new_entry 1 1 "k" PyNone 3600)
  /\ fst (manager_get 2 2 "k" manager_holding_none) = PyNone
  /\ misses (stats (snd (manager_get 2 2 "k" manager_holding_none))) = 1
  /\ hits (stats (snd (manager_get 2 2 "k" manager_holding_none))) = 0.
Proof.
  assert (Hget : Dict.get "k" (_cache (cache manager_holding_none))
                 = Some (new_entry 1 1 "k" PyNone 3600)) by reflexivity.
  destruct (@manager_get_of_cached_none 2 2 "k" manager_holding_none _ Hget eq_refl)
    as (Hv & Hmiss & Hhit & _).
  split; [exact Hget|]. split; [exact Hv|].
  split; [rewrite Hmiss; reflexivity | rewrite Hhit; reflexivity].
Defined.

End CachingFacts.

(* ================================================================= *)
(** * Part III: further properties of the code                        *)
(* ================================================================= *)

(** ** caching.py: lookups, expiry and bookkeeping *)

Section CacheLookupFacts.
Import Caching Examples.
Open Scope Z_scope.

Lemma dict_get_set_same (V : Type) k (v : V) d :
  Dict.get k (Dict.set k v d) = Some v.
Proof.
  induction d as [| [k0 v0] d IH]; simpl.
  - now rewrite String.eqb_refl.
  - destruct (String.eqb k k0) eqn:E; simpl; now rewrite E.
Qed.

Lemma dict_get_set_other (V : Type) k k' (v : V) d :
  k' <> k -> Dict.get k' (Dict.set k v d) = Dict.get k' d.
Proof.
  intros Hne. induction d as [| [k0 v0] d IH]; simpl.
  - now destruct (String.eqb_spec k' k).
  - destruct (String.eqb_spec k k0) as [-> | Hk]; simpl.
    + now destruct (String.eqb_spec k' k0).
    + now rewrite IH.
Qed.



Lemma is_expired_access t now e : is_expired t (access now e) = is_expired t e.
Proof. reflexivity. Qed.

Lemma is_expired_later (g1 g2 : Q) e :
  (g1 <= g2)%Q -> is_expired g1 e = true -> is_expired g2 e = true.
Proof.
  unfold is_expired. rewrite !Qltb_true_iff. intros Hle Hlt.
  eapply Qlt_le_trans; [exact Hlt|].
  unfold Qminus. apply Qplus_le_compat; [exact Hle | apply Qle_refl].
Qed.

Lemma get_hit t1 t2 k c e :
  Dict.get k (_cache c) = Some e ->
  is_expired t1 e = false ->
  get t1 t2 k c = (value e, with_cache c (Dict.set k (access t2 e) (_cache c))).
Proof. intros Hget Hexp. unfold get. now rewrite Hget, Hexp. Qed.

Lemma get_expired t1 t2 k c e :
  Dict.get k (_cache c) = Some e ->
  is_expired t1 e = true ->
  is_expired t2 e = true ->
  get t1 t2 k c = (PyNone, with_cache c (Dict.del k (_cache c))).
Proof. intros Hget H1 H2. unfold get. now rewrite Hget, H1, H2. Qed.

Lemma get_preserves_settings t1 t2 k c :
  default_ttl (snd (get t1 t2 k c)) = default_ttl c
  /\ max_size (snd (get t1 t2 k c)) = max_size c.
Proof.
  unfold get. destruct (Dict.get k (_cache c)) as [e |]; [| now split].
  destruct (negb (is_expired t1 e)); [now split|].
  now destruct (is_expired t2 e).
Qed.

Lemma set_cache t1 t2 k v ttl c :
  exists d,
    _cache (snd (set t1 t2 k v ttl c))
    = Dict.set k (new_entry t1 t2 k v (ttl_or_default ttl (default_ttl c))) d.
Proof. unfold set. simpl. eexists. reflexivity. Qed.

(** Reading back what was just written. *)
Lemma get_after_set t1 t2 g1 g2 k v ttl c :
  is_expired g1 (new_entry t1 t2 k v (ttl_or_default ttl (default_ttl c))) = false ->
  fst (get g1 g2 k (snd (set t1 t2 k v ttl c))) = v.
Proof.
  intros Hexp. destruct (set_cache t1 t2 k v ttl c) as [d Hd].
  assert (Hg : Dict.get k (_cache (snd (set t1 t2 k v ttl c)))
               = Some (new_entry t1 t2 k v (ttl_or_default ttl (default_ttl c))))
    by (rewrite Hd; apply dict_get_set_same).
  now rewrite (get_hit g1 g2 k _ Hg Hexp).
Qed.

(** X1. A value written with [set] is returned by the next [get] of the
    same key, whatever the cache held and whatever its capacity, as long as
    the new entry has not expired at the time of the [get]; that [get]
    leaves the entry in place with one access recorded. *)
Theorem set_then_get_returns_value
    (t1 t2 g1 g2 : Q) (k : string) (v : pyvalue) (ttl : option Z) (c : MemoryCache) :
  is_expired g1 (new_entry t1 t2 k v (ttl_or_default ttl (default_ttl c))) = false ->
  fst (get g1 g2 k (snd (set t1 t2 k v ttl c))) = v
  /\ Dict.get k (_cache (snd (get g1 g2 k (snd (set t1 t2 k v ttl c)))))
     = Some (access g2 (new_entry t1 t2 k v (ttl_or_default ttl (default_ttl c)))).
Proof.
  intros Hexp. split; [now apply get_after_set|].
  destruct (set_cache t1 t2 k v ttl c) as [d Hd].
  assert (Hg : Dict.get k (_cache (snd (set t1 t2 k v ttl c)))
               = Some (new_entry t1 t2 k v (ttl_or_default ttl (default_ttl c))))
    by (rewrite Hd; apply dict_get_set_same).
  rewrite (get_hit g1 g2 k _ Hg Hexp). simpl. apply dict_get_set_same.
Qed.

Lemma set_then_get_returns_value_witness :
  is_expired 5 (new_entry 1 1 "a" (PyInt 7) 3600) = false
  /\ fst (get 5 5 "a" (snd (set 1 1 "a" (PyInt 7) None zero_capacity_cache))) = PyInt 7.
Proof.
  split; [reflexivity|].
  apply (@set_then_get_returns_value 1 1 5 5 "a" (PyInt 7) None zero_capacity_cache).
  reflexivity.
Defined.

(** X2. A [get] of a key whose entry has expired returns [None] and
    removes that entry, and only that entry, from the cache (the clock not
    running backwards between the two expiry checks of [get]). *)
Theorem get_of_expired_entry_removes_it
    (g1 g2 : Q) (k : string) (c : MemoryCache) (e : CacheEntry) :
  reachable c ->
  Dict.get k (_cache c) = Some e ->
  is_expired g1 e = true ->
  (g1 <= g2)%Q ->
  fst (get g1 g2 k c) = PyNone
  /\ Dict.get k (_cache (snd (get g1 g2 k c))) = None
  /\ size (snd (get g1 g2 k c)) = size c - 1
  /\ forall k', k' <> k ->
       Dict.get k' (_cache (snd (get g1 g2 k c))) = Dict.get k' (_cache c).
Proof.
  intros Hreach Hget Hexp Hle.
  destruct (reachable_well_formed Hreach) as [Hnd _].
  rewrite (get_expired g1 g2 k c Hget Hexp (is_expired_later e Hle Hexp)).
  simpl. split; [reflexivity|].
  split; [now apply dict_get_del_same|].
  split; [unfold size; simpl; eapply dict_del_length, Hget|].
  intros k' Hne. now apply dict_get_del_other.
Qed.

Lemma get_of_expired_entry_removes_it_witness :
  reachable (snd (set 1 1 "a" (PyInt 7) (Some 10) (new_cache 3600 2)))
  /\ is_expired 12 (new_entry 1 1 "a" (PyInt 7) 10) = true
  /\ fst (get 12 13 "a" (snd (set 1 1 "a" (PyInt 7) (Some 10) (new_cache 3600 2))))
     = PyNone
  /\ Dict.get "a"
       (_cache (snd (get 12 13 "a"
                       (snd (set 1 1 "a" (PyInt 7) (Some 10) (new_cache 3600 2))))))
     = None.
Proof.
  assert (Hr : reachable (snd (set 1 1 "a" (PyInt 7) (Some 10) (new_cache 3600 2))))
    by apply reach_set, reach_new.
  assert (Hle : (12 <= 13)%Q) by (unfold Qle; simpl; lia).
  destruct (@get_of_expired_entry_removes_it 12 13 "a" _
              (new_entry 1 1 "a" (PyInt 7) 10) Hr eq_refl eq_refl Hle)
    as (Hv & Hgone & _).
  repeat split; assumption.
Defined.

End CacheLookupFacts.

Section CacheStateFacts.
Import Caching Examples.
Open Scope Z_scope.

(** X3. While an entry stays unexpired, [n] successive [get]s of its key
    each return its value and raise its [access_count] by exactly [n]
    altogether, leaving its creation time and TTL as they were. *)
Theorem get_many_counts_accesses
    (clocks : list (Q * Q)) (k : string) (c : MemoryCache) (e : CacheEntry) :
  Dict.get k (_cache c) = Some e ->
  Forall (fun tt => is_expired (fst tt) e = false) clocks ->
  fst (get_many clocks k c) = repeat (value e) (List.length clocks)
  /\ exists e',
       Dict.get k (_cache (snd (get_many clocks k c))) = Some e'
       /\ access_count e' = access_count e + Py.len clocks
       /\ value e' = value e
       /\ created_at e' = created_at e
       /\ ttl_seconds e' = ttl_seconds e.
Proof.
  revert c e. induction clocks as [| [t1 t2] rest IH]; intros c e Hget Hall.
  - simpl. split; [reflexivity|]. exists e. unfold Py.len. simpl.
    repeat split; [exact Hget | lia].
  - inversion Hall as [| ? ? Hexp Hrest]; subst. simpl in Hexp.
    simpl get_many. rewrite (get_hit t1 t2 k c Hget Hexp).
    specialize (IH (with_cache c (Dict.set k (access t2 e) (_cache c)))
                   (access t2 e)).
    destruct (get_many rest k _) as [vs c'] eqn:Hgm.
    destruct IH as [Hvs (e' & Hget' & Hcount & Hval & Hcre & Httl)].
    + simpl. apply dict_get_set_same.
    + eapply Forall_impl; [| exact Hrest]. intros tt H. now rewrite is_expired_access.
    + simpl in *. split; [now rewrite Hvs|].
      exists e'. repeat split; try assumption.
      rewrite Hcount. unfold Py.len. simpl List.length. lia.
Qed.

Lemma get_many_counts_accesses_witness :
  Dict.get "b" (_cache full_cache) = Some (new_entry 2 2 "b" (PyInt 2) 3600)
  /\ fst (get_many [(3, 3); (4, 4); (5, 5)]%Q "b" full_cache)
     = [PyInt 2; PyInt 2; PyInt 2]
  /\ exists e',
       Dict.get "b" (_cache (snd (get_many [(3, 3); (4, 4); (5, 5)]%Q "b" full_cache)))
       = Some e'
       /\ access_count e' = 3.
Proof.
  assert (Hget : Dict.get "b" (_cache full_cache)
                 = Some (new_entry 2 2 "b" (PyInt 2) 3600)) by reflexivity.
  destruct (@get_many_counts_accesses [(3, 3); (4, 4); (5, 5)]%Q "b" full_cache _ Hget)
    as [Hvs (e' & Hget' & Hcount & _)].
  { repeat constructor. }
  split; [exact Hget|]. split; [exact Hvs|].
  exists e'. split; [exact Hget' | exact Hcount].
Defined.

(** X4. [delete] reports whether the key was present; afterwards the key
    is absent, a [get] of it misses, and every other key is untouched. *)
Theorem delete_removes_exactly_the_key (k : string) (c : MemoryCache) :
  reachable c ->
  fst (delete k c) = Dict.mem k (_cache c)
  /\ Dict.get k (_cache (snd (delete k c))) = None
  /\ (forall t1 t2, get t1 t2 k (snd (delete k c)) = (PyNone, snd (delete k c)))
  /\ forall k', k' <> k ->
       Dict.get k' (_cache (snd (delete k c))) = Dict.get k' (_cache c).
Proof.
  intros Hreach. destruct (reachable_well_formed Hreach) as [Hnd _].
  assert (Hgone : Dict.get k (_cache (snd (delete k c))) = None).
  { unfold delete. destruct (Dict.mem k (_cache c)) eqn:Hmem; simpl.
    - now apply dict_get_del_same.
    - unfold Dict.mem in Hmem. now destruct (Dict.get k (_cache c)). }
  split; [unfold delete; now destruct (Dict.mem k (_cache c))|].
  split; [exact Hgone|].
  split; [intros t1 t2; now apply get_of_absent_key|].
  intros k' Hne. unfold delete.
  destruct (Dict.mem k (_cache c)); simpl; [now apply dict_get_del_other | reflexivity].
Qed.

Lemma delete_removes_exactly_the_key_witness :
  reachable full_cache
  /\ fst (delete "a" full_cache) = true
  /\ Dict.get "a" (_cache (snd (delete "a" full_cache))) = None
  /\ Dict.get "b" (_cache (snd (delete "a" full_cache)))
     = Dict.get "b" (_cache full_cache).
Proof.
  assert (Hr : reachable full_cache) by (apply reach_set, reach_set, reach_new).
  destruct (@delete_removes_exactly_the_key "a" full_cache Hr)
    as (Hflag & Hgone & _ & Hother).
  split; [exact Hr|]. split; [rewrite Hflag; reflexivity|].
  split; [exact Hgone|]. apply Hother. discriminate.
Defined.



Lemma get_size_le t1 t2 k c : size (snd (get t1 t2 k c)) <= size c.
Proof.
  unfold get, size.
  destruct (Dict.get k (_cache c)) as [e |] eqn:Hget; simpl; [| lia].
  destruct (negb (is_expired t1 e)); simpl.
  - rewrite dict_set_length. unfold Dict.mem. rewrite Hget. lia.
  - destruct (is_expired t2 e); simpl; [apply dict_del_length_le | lia].
Qed.

Lemma evict_lru_empty c : _cache c = [] -> _evict_lru c = c.
Proof. intros H. unfold _evict_lru, lru_key. now rewrite H. Qed.

Lemma size_zero_empty c : size c <= 0 -> _cache c = [].
Proof.
  unfold size, Py.len. destruct (_cache c); simpl; [reflexivity | lia].
Qed.

Lemma set_size_bound t1 t2 k v ttl c :
  NoDup (Dict.keys (_cache c)) ->
  size c <= Z.max 1 (max_size c) ->
  size (snd (set t1 t2 k v ttl c)) <= Z.max 1 (max_size c).
Proof.
  intros Hnd Hsize. unfold set. cbv zeta. unfold snd.
  assert (Hlen : size (with_cache
                         (if max_size c <=? size c then _evict_lru c else c)
                         (Dict.set k (new_entry t1 t2 k v
                                        (ttl_or_default ttl (default_ttl c)))
                            (_cache (if max_size c <=? size c
                                     then _evict_lru c else c))))
                 <= size (if max_size c <=? size c then _evict_lru c else c) + 1).
  { unfold size at 1. simpl _cache. rewrite dict_set_length.
    unfold size. destruct (Dict.mem k _); lia. }
  destruct (max_size c <=? size c) eqn:Hfull.
  - apply Z.leb_le in Hfull.
    destruct (Z_lt_le_dec 0 (size c)) as [Hpos | Hzero].
    + rewrite evict_lru_size in Hlen by assumption. lia.
    + assert (Hsame : size (_evict_lru c) = size c)
        by (now rewrite (evict_lru_empty c (size_zero_empty c Hzero))).
      rewrite Hsame in Hlen. lia.
  - apply Z.leb_gt in Hfull. lia.
Qed.

(** X6. In every state an in-process cache can reach, its keys are
    distinct and its size is at most [max(1, max_size)]: a cache of positive
    capacity never exceeds it, and a cache built with [max_size <= 0] never
    holds more than one entry. *)
Theorem reachable_cache_is_bounded (c : MemoryCache) :
  reachable c ->
  NoDup (Dict.keys (_cache c)) /\ size c <= Z.max 1 (max_size c).
Proof.
  intros Hreach. split; [now apply reachable_well_formed|].
  induction Hreach as [ttl sz | t1 t2 k c Hr IH | t1 t2 k v ttl c Hr IH
                       | k c Hr IH | c Hr IH | now c Hr IH].
  - unfold size, Py.len. simpl. lia.
  - pose proof (get_size_le t1 t2 k c).
    destruct (get_preserves_settings t1 t2 k c) as [_ ->]. lia.
  - rewrite set_max_size. apply set_size_bound; [| exact IH].
    now apply reachable_well_formed.
  - unfold delete. destruct (Dict.mem k (_cache c)); simpl; [| exact IH].
    pose proof (dict_del_length_le k (_cache c)). unfold size in *. simpl. lia.
  - unfold size, Py.len. simpl. lia.
  - pose proof (filter_length_le (fun kv => negb (is_expired now (snd kv)))
                  (_cache c)).
    unfold size in *. simpl. lia.
Qed.

Lemma reachable_cache_is_bounded_witness :
  reachable (snd (set 2 2 "b" (PyInt 2) None
                    (snd (set 1 1 "a" (PyInt 1) None zero_capacity_cache))))
  /\ size (snd (set 2 2 "b" (PyInt 2) None
                  (snd (set 1 1 "a" (PyInt 1) None zero_capacity_cache)))) <= 1.
Proof.
  assert (Hr : reachable (snd (set 2 2 "b" (PyInt 2) None
                    (snd (set 1 1 "a" (PyInt 1) None zero_capacity_cache)))))
    by (apply reach_set, reach_set, reach_new).
  split; [exact Hr|].
  exact (proj2 (@reachable_cache_is_bounded _ Hr)).
Defined.

(** X7. An entry accessed more recently than some other entry is never
    the one evicted: it is still in the cache, unchanged, after a [set] of
    any other key. *)
Theorem recently_used_entry_survives_set
    (t1 t2 : Q) (k k' k_new : string) (v : pyvalue) (ttl : option Z)
    (c : MemoryCache) (e e' : CacheEntry) :
  reachable c ->
  Dict.get k (_cache c) = Some e ->
  Dict.get k' (_cache c) = Some e' ->
  (last_accessed e' < last_accessed e)%Q ->
  k_new <> k ->
  Dict.get k (_cache (snd (set t1 t2 k_new v ttl c))) = Some e.
Proof.
  intros Hreach Hget Hget' Hlt Hnew.
  destruct (reachable_well_formed Hreach) as [Hnd _].
  unfold set. cbv zeta. unfold snd. simpl _cache.
  rewrite dict_get_set_other by congruence.
  destruct (max_size c <=? size c); [| exact Hget].
  assert (Hpos : 0 < size c).
  { unfold size, Py.len. destruct (_cache c); [discriminate | simpl; lia]. }
  destruct (lru_key_spec c Hnd Hpos) as (victim & entry & Hk & Hv & Hmin).
  unfold _evict_lru. rewrite Hk. simpl.
  rewrite dict_get_del_other; [exact Hget|].
  intros ->. rewrite Hv in Hget. injection Hget as ->.
  specialize (Hmin _ _ Hget').
  apply (Qlt_irrefl (last_accessed e')).
  eapply Qlt_le_trans; eassumption.
Qed.

Lemma recently_used_entry_survives_set_witness :
  reachable (snd (get 3 3 "a" full_cache))
  /\ Dict.get "a" (_cache (snd (set 4 4 "c" (PyInt 3) None
                                  (snd (get 3 3 "a" full_cache)))))
     = Some (access 3 (new_entry 1 1 "a" (PyInt 1) 3600))
  /\ Dict.get "b" (_cache (snd (set 4 4 "c" (PyInt 3) None
                                  (snd (get 3 3 "a" full_cache)))))
     = None.
Proof.
  assert (Hr : reachable (snd (get 3 3 "a" full_cache)))
    by (apply reach_get, reach_set, reach_set, reach_new).
  split; [exact Hr|]. split; [| reflexivity].
  apply (@recently_used_entry_survives_set 4 4 "a" "b" "c" (PyInt 3) None _
           (access 3 (new_entry 1 1 "a" (PyInt 1) 3600))
           (new_entry 2 2 "b" (PyInt 2) 3600) Hr);
    try reflexivity.
  discriminate.
Defined.

End CacheStateFacts.

Section CacheManagerFacts.
Import Caching Examples.
Open Scope Z_scope.

(** X8. [CacheEntry.from_dict] undoes [to_dict], whatever the clock shows
    while the entry is rebuilt; and a dictionary that lacks the access
    statistics gives an entry never accessed, last accessed at its
    creation. *)
Theorem from_dict_to_dict_round_trip (t_created t_accessed : Q) :
  (forall e : CacheEntry, from_dict t_created t_accessed (to_dict e) = Some e)
  /\ (forall k v created ttl,
        from_dict t_created t_accessed
          {| d_key := Some k; d_value := Some v; d_created_at := Some created;
             d_ttl_seconds := Some ttl; d_access_count := None;
             d_last_accessed := None |}
        = Some {| key := k; value := v; created_at := created; ttl_seconds := ttl;
                  access_count := 0; last_accessed := created |}).
Proof.
  split.
  - intros [k v created ttl n accessed]. reflexivity.
  - reflexivity.
Qed.

Lemma manager_set_accounting (C : Type) `{BaseCache C} t1 t2 k v ttl
    (m : CacheManager C) :
  fst (manager_set t1 t2 k v ttl m) = fst (cache_set t1 t2 k v ttl (cache m))
  /\ cache (snd (manager_set t1 t2 k v ttl m))
     = snd (cache_set t1 t2 k v ttl (cache m))
  /\ stats (snd (manager_set t1 t2 k v ttl m))
     = if fst (cache_set t1 t2 k v ttl (cache m))
       then count_set (stats m) else stats m.
Proof.
  unfold manager_set. now destruct (cache_set t1 t2 k v ttl (cache m)).
Qed.

Lemma manager_get_cache (C : Type) `{BaseCache C} t1 t2 k (m : CacheManager C) :
  cache (snd (manager_get t1 t2 k m)) = snd (cache_get t1 t2 k (cache m)).
Proof.
  unfold manager_get. now destruct (cache_get t1 t2 k (cache m)).
Qed.

(** X9. Whatever the backend, one [CacheManager.get] counts exactly one
    request: a hit when the value returned is not [None], a miss when it is;
    the other counters do not move. *)
Theorem manager_get_counts_one_request
    (C : Type) `{BaseCache C} (t1 t2 : Q) (k : string) (m : CacheManager C) :
  let v := fst (manager_get t1 t2 k m) in
  let after := stats (snd (manager_get t1 t2 k m)) in
  total_requests after = total_requests (stats m) + 1
  /\ hits after = (if is_not_none v then hits (stats m) + 1 else hits (stats m))
  /\ misses after
     = (if is_not_none v then misses (stats m) else misses (stats m) + 1)
  /\ sets after = sets (stats m)
  /\ deletes after = deletes (stats m)
  /\ errors after = errors (stats m).
Proof.
  intros v after. subst v after.
  destruct (manager_get_accounting t1 t2 k m) as [-> ->].
  unfold total_requests.
  destruct (is_not_none (fst (cache_get t1 t2 k (cache m)))); simpl;
    repeat split; lia.
Qed.

(** X10. With counters that are not negative, as they are from
    [CacheManager.__init__] on, the hit rate reported lies between 0 and 1,
    and it is 0 before the first request. *)
Theorem hit_rate_within_unit_interval (s : Stats) :
  0 <= hits s ->
  0 <= misses s ->
  (0 <= hit_rate s)%Q /\ (hit_rate s <= 1)%Q
  /\ (total_requests s = 0 -> hit_rate s = 0%Q).
Proof.
  intros Hh Hm. unfold hit_rate, total_requests.
  destruct (0 <? hits s + misses s) eqn:Hpos.
  - apply Z.ltb_lt in Hpos.
    assert (Hq : (0 < inject_Z (hits s + misses s))%Q)
      by (rewrite <- (Zlt_Qlt 0); exact Hpos).
    split; [| split].
    + apply Qle_shift_div_l; [exact Hq|]. rewrite Qmult_0_l.
      rewrite <- (Zle_Qle 0). exact Hh.
    + apply Qle_shift_div_r; [exact Hq|]. rewrite Qmult_1_l.
      rewrite <- Zle_Qle. lia.
    + intros H0. lia.
  - split; [apply Qle_refl|]. split; [| reflexivity].
    unfold Qle. simpl. lia.
Qed.

Lemma hit_rate_within_unit_interval_witness :
  0 <= hits (stats (snd (manager_get 2 2 "k" manager_holding_none)))
  /\ 0 <= misses (stats (snd (manager_get 2 2 "k" manager_holding_none)))
  /\ (hit_rate (stats (snd (manager_get 2 2 "k" manager_holding_none))) <= 1)%Q.
Proof.
  assert (Hh : 0 <= hits (stats (snd (manager_get 2 2 "k" manager_holding_none))))
    by (vm_compute; discriminate).
  assert (Hm : 0 <= misses (stats (snd (manager_get 2 2 "k" manager_holding_none))))
    by (vm_compute; discriminate).
  split; [exact Hh|]. split; [exact Hm|].
  exact (proj1 (proj2 (@hit_rate_within_unit_interval _ Hh Hm))).
Defined.

(** X11. A [MultiLevelCache.get] that misses level 1 and finds a value in
    level 2 returns that value and promotes it: level 1 then holds the key
    with a fresh entry created at promotion time under level 1's default
    TTL, whatever TTL the value was stored with. *)
Theorem multilevel_get_promotes_to_level_one
    (C2 : Type) `{BaseCache C2} (t1 t2 t3 t4 t5 t6 : Q) (k : string)
    (self : MultiLevelCache.t MemoryCache C2) :
  fst (get t1 t2 k (MultiLevelCache.l1_cache self)) = PyNone ->
  fst (cache_get t3 t4 k (MultiLevelCache.l2_cache self)) <> PyNone ->
  fst (MultiLevelCache.get t1 t2 t3 t4 t5 t6 k self)
  = fst (cache_get t3 t4 k (MultiLevelCache.l2_cache self))
  /\ Dict.get k (_cache (MultiLevelCache.l1_cache
                           (snd (MultiLevelCache.get t1 t2 t3 t4 t5 t6 k self))))
     = Some (new_entry t5 t6 k
               (fst (cache_get t3 t4 k (MultiLevelCache.l2_cache self)))
               (default_ttl (MultiLevelCache.l1_cache self))).
Proof.
  intros Hmiss Hhit.
  pose proof (get_preserves_settings t1 t2 k (MultiLevelCache.l1_cache self))
    as [Httl _].
  assert (E : MultiLevelCache.get t1 t2 t3 t4 t5 t6 k self
              = (fst (cache_get t3 t4 k (MultiLevelCache.l2_cache self)),
                 {| MultiLevelCache.l1_cache :=
                      snd (set t5 t6 k
                             (fst (cache_get t3 t4 k (MultiLevelCache.l2_cache self)))
                             None
                             (snd (get t1 t2 k (MultiLevelCache.l1_cache self))));
                    MultiLevelCache.l2_cache :=
                      snd (cache_get t3 t4 k (MultiLevelCache.l2_cache self)) |})).
  { unfold MultiLevelCache.get. simpl cache_get. simpl cache_set.
    destruct (get t1 t2 k (MultiLevelCache.l1_cache self)) as [value1 l1'].
    simpl in Hmiss. subst value1. simpl is_not_none. cbv iota.
    destruct (cache_get t3 t4 k (MultiLevelCache.l2_cache self)) as [value2 l2'].
    simpl in Hhit. simpl fst. simpl snd.
    destruct value2; [contradiction | | |]; reflexivity. }
  destruct (set_cache t5 t6 k
              (fst (cache_get t3 t4 k (MultiLevelCache.l2_cache self))) None
              (snd (get t1 t2 k (MultiLevelCache.l1_cache self)))) as [d Hd].
  rewrite E. split; [reflexivity|].
  change (Dict.get k
            (_cache (snd (set t5 t6 k
                            (fst (cache_get t3 t4 k (MultiLevelCache.l2_cache self)))
                            None
                            (snd (get t1 t2 k (MultiLevelCache.l1_cache self))))))
          = Some (new_entry t5 t6 k
                    (fst (cache_get t3 t4 k (MultiLevelCache.l2_cache self)))
                    (default_ttl (MultiLevelCache.l1_cache self)))).
  rewrite Hd, Httl. apply dict_get_set_same.
Qed.

Lemma multilevel_get_promotes_to_level_one_witness :
  let two_levels :=
    {| MultiLevelCache.l1_cache := new_cache 60 2;
       MultiLevelCache.l2_cache := full_cache |} in
  fst (get 3 3 "a" (MultiLevelCache.l1_cache two_levels)) = PyNone
  /\ fst (MultiLevelCache.get 3 3 3 3 4 4 "a" two_levels) = PyInt 1
  /\ Dict.get "a" (_cache (MultiLevelCache.l1_cache
                             (snd (MultiLevelCache.get 3 3 3 3 4 4 "a" two_levels))))
     = Some (new_entry 4 4 "a" (PyInt 1) 60).
Proof.
  intros two_levels.
  destruct (@multilevel_get_promotes_to_level_one MemoryCache _ 3 3 3 3 4 4 "a"
              two_levels eq_refl) as [Hv Hl1].
  { discriminate. }
  split; [reflexivity|]. split; [exact Hv | exact Hl1].
Defined.

(** X12. A value other than [None] written through [MultiLevelCache.set]
    is returned by the next [MultiLevelCache.get] from level 1, as long as
    its level-1 entry has not expired. *)
Theorem multilevel_set_then_get
    (C2 : Type) `{BaseCache C2} (s1 s2 s3 s4 t1 t2 t3 t4 t5 t6 : Q) (k : string)
    (v : pyvalue) (ttl : option Z) (self : MultiLevelCache.t MemoryCache C2) :
  v <> PyNone ->
  is_expired t1 (new_entry s1 s2 k v
                   (ttl_or_default ttl (default_ttl (MultiLevelCache.l1_cache self))))
  = false ->
  fst (MultiLevelCache.get t1 t2 t3 t4 t5 t6 k
         (snd (MultiLevelCache.set s1 s2 s3 s4 k v ttl self))) = v.
Proof.
  intros Hv Hexp.
  pose proof (get_after_set s1 s2 t1 t2 k v ttl (MultiLevelCache.l1_cache self) Hexp)
    as Hget.
  unfold MultiLevelCache.set. simpl cache_set at 1.
  destruct (set s1 s2 k v ttl (MultiLevelCache.l1_cache self)) as [ok1 l1'].
  destruct (cache_set s3 s4 k v ttl (MultiLevelCache.l2_cache self)) as [ok2 l2'].
  simpl snd in *. unfold MultiLevelCache.get. simpl cache_get at 1.
  simpl MultiLevelCache.l1_cache.
  destruct (get t1 t2 k l1') as [value1 l1''].
  simpl in Hget. subst value1.
  destruct v; [contradiction | | |]; reflexivity.
Qed.

Lemma multilevel_set_then_get_witness :
  let two_levels :=
    {| MultiLevelCache.l1_cache := new_cache 60 2;
       MultiLevelCache.l2_cache := full_cache |} in
  PyInt 9 <> PyNone
  /\ fst (MultiLevelCache.get 6 6 6 6 6 6 "z"
            (snd (MultiLevelCache.set 5 5 5 5 "z" (PyInt 9) None two_levels)))
     = PyInt 9.
Proof.
  intros two_levels. split; [discriminate|].
  apply (@multilevel_set_then_get MemoryCache _ 5 5 5 5 6 6 6 6 6 6 "z"
           (PyInt 9) None two_levels); [discriminate | reflexivity].
Defined.

Lemma cached_wrapper_miss (C : Type) `{BaseCache C} t1 t2 t3 t4
    (m : CacheManager C) cache_key ttl_seconds result :
  fst (cache_get t1 t2 cache_key (cache m)) = PyNone ->
  cached_wrapper t1 t2 t3 t4 (Some m) cache_key ttl_seconds result
  = (result,
     Some (snd (manager_set t3 t4 cache_key result ttl_seconds
                  (snd (manager_get t1 t2 cache_key m))))).
Proof.
  intros Hmiss. unfold cached_wrapper.
  destruct (manager_get_accounting t1 t2 cache_key m) as [Hfst _].
  destruct (manager_get t1 t2 cache_key m) as [cached1 m1].
  simpl fst in Hfst. rewrite Hmiss in Hfst. subst cached1. simpl.
  now destruct (manager_set t3 t4 cache_key result ttl_seconds m1).
Qed.

Lemma cached_wrapper_hit (C : Type) `{BaseCache C} t1 t2 t3 t4
    (m : CacheManager C) cache_key ttl_seconds result :
  is_not_none (fst (cache_get t1 t2 cache_key (cache m))) = true ->
  fst (cached_wrapper t1 t2 t3 t4 (Some m) cache_key ttl_seconds result)
  = fst (cache_get t1 t2 cache_key (cache m)).
Proof.
  intros Hhit. unfold cached_wrapper.
  destruct (manager_get_accounting t1 t2 cache_key m) as [Hfst _].
  destruct (manager_get t1 t2 cache_key m) as [cached1 m1].
  simpl fst in Hfst. rewrite <- Hfst in *. now rewrite Hhit.
Qed.

(** X13. The [cached] wrapper memoises: after a call that missed the cache
    and stored a result other than [None], the next call with the same key
    returns that stored result without using what the function would now
    return, as long as the entry has not expired.  A [None] result is
    stored but never served: the next call returns the function's new
    result. *)
Theorem cached_wrapper_memoizes
    (t1 t2 t3 t4 g1 g2 g3 g4 : Q) (m : CacheManager MemoryCache)
    (cache_key : string) (ttl_seconds : option Z) (result result' : pyvalue) :
  fst (get t1 t2 cache_key (cache m)) = PyNone ->
  is_expired g1 (new_entry t3 t4 cache_key result
                   (ttl_or_default ttl_seconds (default_ttl (cache m)))) = false ->
  fst (cached_wrapper t1 t2 t3 t4 (Some m) cache_key ttl_seconds result) = result
  /\ fst (cached_wrapper g1 g2 g3 g4
            (snd (cached_wrapper t1 t2 t3 t4 (Some m) cache_key ttl_seconds result))
            cache_key ttl_seconds result')
     = if is_not_none result then result else result'.
Proof.
  intros Hmiss Hexp.
  rewrite (@cached_wrapper_miss MemoryCache MemoryCache_BaseCache
             t1 t2 t3 t4 m cache_key ttl_seconds result Hmiss).
  split; [reflexivity|]. unfold snd at 1.
  set (m2 := snd (manager_set t3 t4 cache_key result ttl_seconds
                    (snd (manager_get t1 t2 cache_key m)))).
  assert (Hback : fst (cache_get g1 g2 cache_key (cache m2)) = result).
  { subst m2.
    destruct (manager_set_accounting t3 t4 cache_key result ttl_seconds
                (snd (manager_get t1 t2 cache_key m))) as (_ & -> & _).
    rewrite manager_get_cache.
    change (fst (get g1 g2 cache_key
                   (snd (set t3 t4 cache_key result ttl_seconds
                           (snd (get t1 t2 cache_key (cache m)))))) = result).
    apply get_after_set.
    destruct (get_preserves_settings t1 t2 cache_key (cache m)) as [-> _].
    exact Hexp. }
  destruct (is_not_none result) eqn:Hres.
  - rewrite (@cached_wrapper_hit MemoryCache MemoryCache_BaseCache
               g1 g2 g3 g4 m2 cache_key ttl_seconds result');
      rewrite Hback; [reflexivity | exact Hres].
  - destruct result; try discriminate.
    now rewrite (@cached_wrapper_miss MemoryCache MemoryCache_BaseCache
                   g1 g2 g3 g4 m2 cache_key ttl_seconds result' Hback).
Qed.

Lemma cached_wrapper_memoizes_witness :
  let m := new_manager (new_cache 3600 10) in
  fst (get 1 1 "f(1)" (cache m)) = PyNone
  /\ fst (cached_wrapper 2 2 2 2
            (snd (cached_wrapper 1 1 1 1 (Some m) "f(1)" None (PyInt 41)))
            "f(1)" None (PyInt 42))
     = PyInt 41.
Proof.
  intros m. split; [reflexivity|].
  apply (proj2 (@cached_wrapper_memoizes 1 1 1 1 2 2 2 2 m "f(1)" None
                  (PyInt 41) (PyInt 42) eq_refl eq_refl)).
Defined.

End CacheManagerFacts.

(** ** vector_search.py: adding, finding by id, persisting *)

Section IndexUpdateFacts.
Import EmbeddingEngine VectorSearch Examples.
Open Scope Z_scope.

Variable faiss_add : faiss_index -> list vector -> option faiss_index.

Lemma register_from_other s ids start_idx d id :
  ~ In id ids -> Dict.get id (register_from s ids start_idx d) = Dict.get id d.
Proof.
  unfold register_from. revert s d.
  induction ids as [| x rest IH]; intros s d Hnotin; simpl; [reflexivity|].
  rewrite IH by (intros H; apply Hnotin; now right).
  apply dict_get_set_other. intros ->. apply Hnotin. now left.
Qed.

Lemma register_from_nth s ids start_idx d i id :
  NoDup ids ->
  nth_error ids i = Some id ->
  Dict.get id (register_from s ids start_idx d) = Some (start_idx + (s + Z.of_nat i)).
Proof.
  unfold register_from. revert s d i.
  induction ids as [| x rest IH]; intros s d i Hnd Hnth; [now destruct i|].
  inversion Hnd as [| ? ? Hnotin Hnd']; subst. simpl.
  destruct i as [| j]; simpl in Hnth.
  - injection Hnth as ->.
    fold (register_from (s + 1) rest start_idx (Dict.set id (start_idx + s) d)).
    rewrite register_from_other by exact Hnotin.
    rewrite dict_get_set_same. f_equal. lia.
  - rewrite (IH (s + 1) _ j Hnd' Hnth). f_equal. lia.
Qed.

Lemma register_from_bounds s ids start_idx d id idx :
  Dict.get id (register_from s ids start_idx d) = Some idx ->
  Dict.get id d = Some idx
  \/ start_idx + s <= idx < start_idx + s + Py.len ids.
Proof.
  unfold register_from, Py.len. revert s d.
  induction ids as [| x rest IH]; intros s d H; simpl in H; [now left|].
  apply IH in H. simpl List.length. destruct H as [H | H]; [| right; lia].
  destruct (String.eqb_spec id x) as [-> | Hne].
  - rewrite dict_get_set_same in H. injection H as <-. right. lia.
  - rewrite dict_get_set_other in H by exact Hne. now left.
Qed.

Lemma py_len_app (A : Type) (l l' : list A) : Py.len (l ++ l') = Py.len l + Py.len l'.
Proof. unfold Py.len. rewrite length_app. lia. Qed.

Lemma py_index_app_old (A : Type) (l l' : list A) pos :
  0 <= pos < Py.len l -> Py.index (l ++ l') pos = Py.index l pos.
Proof.
  unfold Py.index, Py.len. intros Hpos.
  destruct (0 <=? pos) eqn:E; [| apply Z.leb_gt in E; lia].
  apply nth_error_app1. lia.
Qed.

Lemma py_index_app_new (A : Type) (l l' : list A) i :
  Py.index (l ++ l') (Py.len l + Z.of_nat i) = nth_error l' i.
Proof.
  unfold Py.index, Py.len.
  destruct (0 <=? Z.of_nat (List.length l) + Z.of_nat i) eqn:E;
    [| apply Z.leb_gt in E; lia].
  rewrite nth_error_app2 by lia. f_equal. lia.
Qed.

Lemma add_vectors_cases self vectors new_metadata ids :
  add_vectors faiss_add self vectors new_metadata ids = (false, self)
  \/ exists faiss',
       Py.len vectors = Py.len new_metadata
       /\ add_vectors faiss_add self vectors new_metadata ids
          = (true,
             {| dimension := dimension self;
                index := Some faiss';
                metadata := (metadata self ++ new_metadata)%list;
                id_to_idx :=
                  match ids with
                  | Some l => register_ids l (Py.len (metadata self)) (id_to_idx self)
                  | None => id_to_idx self
                  end |}).
Proof.
  unfold add_vectors.
  destruct (index self) as [faiss |]; [| now left].
  destruct (Py.len vectors =? Py.len new_metadata) eqn:Hlen; simpl negb; cbv iota;
    [| now left].
  apply Z.eqb_eq in Hlen.
  destruct (faiss_add faiss vectors) as [faiss' |]; [| now left].
  right. exists faiss'. now split.
Qed.

(** X14. [add_vectors] either fails and leaves the object exactly as it
    was, or succeeds on as many vectors as metadata entries and appends the
    metadata after the existing records, none of which changes position;
    the dimension is never touched. *)
Theorem add_vectors_appends_or_leaves_unchanged
    (self : FAISSVectorSearch) (vectors : list vector)
    (new_metadata : list metadata_dict) (ids : option (list string)) :
  let r := add_vectors faiss_add self vectors new_metadata ids in
  (fst r = false -> snd r = self)
  /\ (fst r = true ->
      Py.len vectors = Py.len new_metadata
      /\ metadata (snd r) = (metadata self ++ new_metadata)%list
      /\ Py.len (metadata (snd r)) = Py.len (metadata self) + Py.len vectors
      /\ dimension (snd r) = dimension self
      /\ forall pos, 0 <= pos < Py.len (metadata self) ->
           Py.index (metadata (snd r)) pos = Py.index (metadata self) pos).
Proof.
  intros r. subst r.
  destruct (add_vectors_cases self vectors new_metadata ids)
    as [-> | (faiss' & Hlen & ->)]; simpl.
  - split; [reflexivity | discriminate].
  - split; [discriminate|]. intros _.
    split; [exact Hlen|]. split; [reflexivity|].
    split; [rewrite py_len_app; lia|]. split; [reflexivity|].
    intros pos Hpos. now apply py_index_app_old.
Qed.

Lemma add_vectors_ids_in_bounds self vectors new_metadata l :
  ids_in_bounds self ->
  Py.len l <= Py.len new_metadata ->
  ids_in_bounds (snd (add_vectors faiss_add self vectors new_metadata (Some l))).
Proof.
  intros Hinv Hl.
  destruct (add_vectors_cases self vectors new_metadata (Some l))
    as [-> | (faiss' & Hlen & ->)]; [exact Hinv|].
  unfold ids_in_bounds, register_ids. simpl. intros id idx H.
  rewrite py_len_app.
  assert (0 <= Py.len new_metadata) by (unfold Py.len; lia).
  assert (0 <= Py.len (metadata self)) by (unfold Py.len; lia).
  apply (register_from_bounds 0) in H as [H | H]; [apply Hinv in H; lia | lia].
Qed.

Lemma add_evidence_cases (self : EvidenceRetriever) articles :
  add_evidence faiss_add self articles = (false, self)
  \/ exists vs',
       add_evidence faiss_add self articles
       = (true, {| embedding_engine := embedding_engine self; vector_search := vs' |})
       /\ add_vectors faiss_add (vector_search self)
            (map (fun a => or_default (a_embedding a) []) (embedded_articles articles))
            (map article_metadata (embedded_articles articles))
            (Some (map article_id (embedded_articles articles)))
          = (true, vs').
Proof.
  unfold add_evidence. cbv zeta.
  destruct (map (fun a => or_default (a_embedding a) []) (embedded_articles articles))
    as [| v vs] eqn:Hv; [now left|].
  destruct (ragged (v :: vs)); [now left|].
  destruct (add_vectors_cases (vector_search self) (v :: vs)
              (map article_metadata (embedded_articles articles))
              (Some (map article_id (embedded_articles articles))))
    as [E | (faiss' & _ & E)]; rewrite E.
  - left. now destruct self.
  - right. eexists. split; reflexivity.
Qed.

(** X15. [add_evidence] keeps every registered id inside the metadata:
    if each id mapped to a valid position before the call, each id, old or
    new, maps to a valid position after it. *)
Theorem add_evidence_keeps_ids_in_bounds (self : EvidenceRetriever) articles :
  ids_in_bounds (vector_search self) ->
  ids_in_bounds (vector_search (snd (add_evidence faiss_add self articles))).
Proof.
  intros Hinv.
  destruct (add_evidence_cases self articles) as [-> | (vs' & -> & Hadd)];
    [exact Hinv|].
  simpl.
  pose proof (@add_vectors_ids_in_bounds (vector_search self)
                (map (fun a => or_default (a_embedding a) []) (embedded_articles articles))
                (map article_metadata (embedded_articles articles))
                (map article_id (embedded_articles articles)) Hinv) as H.
  rewrite Hadd in H. apply H. unfold Py.len. rewrite !length_map. lia.
Qed.

(** X16. After a successful [add_evidence], an article that was added is
    found again by its id, with exactly the metadata built from it,
    provided the ids of the added articles are distinct. *)
Theorem add_evidence_then_get_by_id
    (self : EvidenceRetriever) (articles : list article) (i : nat) (a : article) :
  fst (add_evidence faiss_add self articles) = true ->
  NoDup (map article_id (embedded_articles articles)) ->
  nth_error (embedded_articles articles) i = Some a ->
  get_evidence_by_id (snd (add_evidence faiss_add self articles)) (article_id a)
  = Some (article_metadata a).
Proof.
  intros Hok Hnd Hnth.
  destruct (add_evidence_cases self articles) as [E | (vs' & E & Hadd)];
    rewrite E in *; [discriminate|]. clear Hok.
  destruct (add_vectors_cases (vector_search self)
              (map (fun a => or_default (a_embedding a) []) (embedded_articles articles))
              (map article_metadata (embedded_articles articles))
              (Some (map article_id (embedded_articles articles))))
    as [E' | (faiss' & _ & E')]; rewrite E' in Hadd; [discriminate|].
  injection Hadd as <-.
  unfold get_evidence_by_id, register_ids. simpl.
  rewrite (@register_from_nth 0 _ _ _ i (article_id a) Hnd)
    by (now apply map_nth_error).
  rewrite Z.add_0_l.
  assert (Hi : (i < List.length (embedded_articles articles))%nat)
    by (apply nth_error_Some; congruence).
  assert (Hlt : (Py.len (metadata (vector_search self)) + Z.of_nat i
                 <? Py.len (metadata (vector_search self)
                            ++ map article_metadata (embedded_articles articles))%list)
                = true).
  { apply Z.ltb_lt. rewrite py_len_app. unfold Py.len. rewrite length_map. lia. }
  rewrite Hlt, py_index_app_new, (map_nth_error _ _ _ Hnth). reflexivity.
Qed.

(** X17. Reading back what [save_index] wrote restores the saved object
    exactly, into whatever object does the loading: metadata, id table,
    dimension and index are those that were saved, so every search gives the
    same result as before. *)
Theorem save_then_load_restores
    (writes_succeed : bool) (self other : FAISSVectorSearch) (files : index_files) :
  save_index writes_succeed self = Some files ->
  load_index files other = (true, self)
  /\ forall query_vector top_k,
       search (snd (load_index files other)) query_vector top_k
       = search self query_vector top_k.
Proof.
  unfold save_index. intros H.
  destruct (index self) as [faiss |] eqn:Hidx; [| discriminate].
  destruct writes_succeed; [| discriminate]. injection H as <-.
  assert (E : load_index
                {| index_path_exists := true; metadata_path_exists := true;
                   read_index := Some faiss;
                   pickle_load :=
                     Some {| p_metadata := Some (metadata self);
                             p_id_to_idx := Some (id_to_idx self);
                             p_dimension := Some (dimension self) |} |} other
              = (true, self)).
  { unfold load_index. simpl. rewrite <- Hidx. now destruct self. }
  rewrite E. split; reflexivity.
Qed.

(** X18. [clear_index] empties the object and keeps its dimension:
    afterwards every search returns the empty list, no id is found, and the
    id table is trivially within bounds, whether or not a fresh FAISS index
    could be built. *)
Theorem clear_index_empties (fresh : option faiss_index) (self : FAISSVectorSearch) :
  let cleared := clear_index fresh self in
  dimension cleared = dimension self
  /\ metadata cleared = []
  /\ ids_in_bounds cleared
  /\ (forall query_vector top_k, search cleared query_vector top_k = [])
  /\ (forall engine evidence_id,
        get_evidence_by_id
          {| embedding_engine := engine; vector_search := cleared |} evidence_id
        = None)
  /\ (forall engine query top_k min_similarity,
        fst (retrieve_evidence
               {| embedding_engine := engine; vector_search := cleared |}
               query top_k min_similarity) = []).
Proof.
  intros cleared. split; [reflexivity|]. split; [reflexivity|].
  split; [intros id idx H; discriminate|].
  split; [intros q k; now apply search_empty_index|].
  split; [reflexivity|].
  intros engine query top_k min_similarity. unfold retrieve_evidence. simpl.
  destruct (encode_text engine query true) as [[q |] engine']; [| reflexivity].
  simpl. now rewrite search_empty_index.
Qed.

End IndexUpdateFacts.

Section IndexUpdateWitnesses.
Import EmbeddingEngine VectorSearch Examples.
Open Scope Z_scope.

Lemma add_vectors_appends_or_leaves_unchanged_witness :
  fst (add_vectors (fun faiss _ => Some faiss) two_vector_index [[0%R; 1%R]]
         [vaccine_safety] (Some ["9"%string])) = true
  /\ fst (add_vectors (fun faiss _ => Some faiss) two_vector_index [[0%R; 1%R]]
            [] None) = false
  /\ Py.len (metadata (snd (add_vectors (fun faiss _ => Some faiss) two_vector_index
                              [[0%R; 1%R]] [vaccine_safety] (Some ["9"%string])))) = 3
  /\ snd (add_vectors (fun faiss _ => Some faiss) two_vector_index [[0%R; 1%R]]
            [] None) = two_vector_index.
Proof.
  split; [reflexivity|]. split; [reflexivity|]. split.
  - destruct (proj2 (@add_vectors_appends_or_leaves_unchanged
               (fun faiss _ => Some faiss) two_vector_index [[0%R; 1%R]]
               [vaccine_safety] (Some ["9"%string])) eq_refl) as (_ & _ & Hlen & _).
    exact Hlen.
  - apply (proj1 (@add_vectors_appends_or_leaves_unchanged
               (fun faiss _ => Some faiss) two_vector_index [[0%R; 1%R]]
               [] None)).
    reflexivity.
Defined.

Lemma two_vector_index_ids_in_bounds : ids_in_bounds two_vector_index.
Proof.
  intros id idx. unfold two_vector_index, Py.len. simpl.
  destruct (String.eqb id "1"); [intros [= <-]; lia|].
  destruct (String.eqb id "2"); [intros [= <-]; lia | discriminate].
Qed.

Lemma add_evidence_keeps_ids_in_bounds_witness :
  ids_in_bounds (vector_search two_record_retriever)
  /\ ids_in_bounds
       (vector_search (snd (add_evidence (fun faiss _ => Some faiss)
                              two_record_retriever [new_article]))).
Proof.
  split; [exact two_vector_index_ids_in_bounds|].
  apply add_evidence_keeps_ids_in_bounds. exact two_vector_index_ids_in_bounds.
Defined.

Lemma add_evidence_then_get_by_id_witness :
  fst (add_evidence (fun faiss _ => Some faiss) two_record_retriever [new_article])
  = true
  /\ get_evidence_by_id
       (snd (add_evidence (fun faiss _ => Some faiss) two_record_retriever
               [new_article])) "3"
     = Some (article_metadata new_article).
Proof.
  split; [reflexivity|].
  apply (@add_evidence_then_get_by_id (fun faiss _ => Some faiss)
           two_record_retriever [new_article] 0 new_article).
  - reflexivity.
  - repeat constructor. intros [].
  - reflexivity.
Defined.

Lemma save_then_load_restores_witness :
  save_index true two_vector_index
  = Some {| index_path_exists := true; metadata_path_exists := true;
            read_index := index two_vector_index;
            pickle_load :=
              Some {| p_metadata := Some (metadata two_vector_index);
                      p_id_to_idx := Some (id_to_idx two_vector_index);
                      p_dimension := Some 2 |} |}
  /\ load_index
       {| index_path_exists := true; metadata_path_exists := true;
          read_index := index two_vector_index;
          pickle_load :=
            Some {| p_metadata := Some (metadata two_vector_index);
                    p_id_to_idx := Some (id_to_idx two_vector_index);
                    p_dimension := Some 2 |} |}
       index_of_dimension_384
     = (true, two_vector_index).
Proof.
  split; [reflexivity|].
  exact (proj1 (@save_then_load_restores true two_vector_index
                  index_of_dimension_384 _ eq_refl)).
Defined.

End IndexUpdateWitnesses.

(** ** vector_search.py: what a search returns *)

Section SearchFacts.
Import EmbeddingEngine VectorSearch Examples.
Open Scope Z_scope.

Lemma format_results_trace md hits results :
  format_results md hits = Some results ->
  Forall (fun r => exists distance,
              In (fst (fst r), distance) hits
              /\ (1 + distance <> 0)%R
              /\ snd (fst r) = (1 / (1 + distance))%R
              /\ fst (fst r) < Py.len md
              /\ Py.index md (fst (fst r)) = Some (snd r)) results
  /\ (List.length results <= List.length hits)%nat.
Proof.
  revert results. induction hits as [| [idx distance] rest IH]; simpl; intros results H.
  - injection H as <-. split; [constructor | simpl; lia].
  - destruct (idx <? Py.len md) eqn:Hlt.
    + destruct (Req_EM_T (1 + distance) 0) as [| Hd]; [discriminate|].
      destruct (Py.index md idx) as [m |] eqn:Hm; [| discriminate].
      destruct (format_results md rest) as [results' |]; [| discriminate].
      injection H as <-. destruct (IH _ eq_refl) as [Hall Hlen].
      split; [| simpl; lia]. constructor.
      * exists distance. simpl. apply Z.ltb_lt in Hlt.
        repeat split; try assumption. now left.
      * eapply Forall_impl; [| exact Hall].
        intros r (d & Hin & Hrest). exists d. split; [now right | exact Hrest].
    + destruct (IH _ H) as [Hall Hlen]. split; [| lia].
      eapply Forall_impl; [| exact Hall].
      intros r (d & Hin & Hrest). exists d. split; [now right | exact Hrest].
Qed.

Lemma format_results_complete md hits :
  Forall (fun h => 0 <= fst h < Py.len md /\ (1 + snd h <> 0)%R) hits ->
  exists results,
    format_results md hits = Some results
    /\ map (fun r => fst (fst r)) results = map fst hits
    /\ map (fun r => Some (snd r)) results = map (fun h => Py.index md (fst h)) hits.
Proof.
  induction 1 as [| [idx distance] rest [[H0 Hlt] Hd] _ (results & E & Hpos & Hmd)].
  - exists []. now repeat split.
  - simpl in *. apply Z.ltb_lt in Hlt as Hlt'. rewrite Hlt'.
    destruct (Req_EM_T (1 + distance) 0); [contradiction|].
    assert (Hsome : exists m, Py.index md idx = Some m).
    { assert (E0 : (0 <=? idx) = true) by now apply Z.leb_le.
      unfold Py.index. rewrite E0.
      destruct (nth_error md (Z.to_nat idx)) eqn:Hn; [eauto|].
      apply nth_error_None in Hn. unfold Py.len in Hlt. lia. }
    destruct Hsome as [m Hm]. rewrite Hm, E.
    eexists. split; [reflexivity|]. cbn [map fst snd]. now rewrite Hpos, Hmd.
Qed.

(** X19. Each triple [search] returns comes from a slot FAISS returned:
    its similarity is [1/(1+distance)] of that slot, its position is below
    [len(metadata)] and a subscript Python accepts, and its metadata is the
    record stored at that position; [search] never returns more triples than
    FAISS returned slots.  When every label FAISS returns is a valid
    position, nothing is dropped: the positions returned are the labels, in
    FAISS's order. *)
Theorem search_results_come_from_faiss
    (self : FAISSVectorSearch) (query_vector : vector) (top_k : Z)
    (faiss : faiss_index) (hits : list (Z * R)) :
  index self = Some faiss ->
  faiss query_vector top_k = Some hits ->
  Forall (fun r => exists distance,
              In (fst (fst r), distance) hits
              /\ snd (fst r) = (1 / (1 + distance))%R
              /\ - Py.len (metadata self) <= fst (fst r) < Py.len (metadata self)
              /\ Py.index (metadata self) (fst (fst r)) = Some (snd r))
         (search self query_vector top_k)
  /\ (List.length (search self query_vector top_k) <= List.length hits)%nat
  /\ (Forall (fun h => 0 <= fst h < Py.len (metadata self) /\ (1 + snd h <> 0)%R) hits ->
      map (fun r => fst (fst r)) (search self query_vector top_k) = map fst hits).
Proof.
  intros Hidx Hhits. unfold search. rewrite Hidx, Hhits.
  split; [| split].
  - destruct (format_results (metadata self) hits) as [results |] eqn:E; [| constructor].
    destruct (format_results_trace _ _ E) as [Hall _].
    eapply Forall_impl; [| exact Hall].
    intros r (d & Hin & _ & Hsim & _ & Hm). exists d.
    repeat split; try assumption; eapply py_index_some_bounds; exact Hm.
  - destruct (format_results (metadata self) hits) as [results |] eqn:E; [| simpl; lia].
    now destruct (format_results_trace _ _ E).
  - intros Hvalid.
    destruct (format_results_complete (metadata self) Hvalid) as (results & -> & Hpos & _).
    exact Hpos.
Qed.

Lemma search_results_come_from_faiss_witness :
  index two_vector_index = Some (faiss_returning [(0, 0.5%R); (1, 1%R)])
  /\ padded_row [(0, 0.5%R); (1, 1%R)] 2 = [(0, 0.5%R); (1, 1%R)]
  /\ map (fun r => fst (fst r)) (search two_vector_index [1%R; 0%R] 2) = [0; 1].
Proof.
  split; [reflexivity|]. split; [reflexivity|].
  apply (proj2 (proj2 (@search_results_come_from_faiss two_vector_index [1%R; 0%R] 2
                         (faiss_returning [(0, 0.5%R); (1, 1%R)])
                         [(0, 0.5%R); (1, 1%R)] eq_refl eq_refl))).
  repeat constructor; simpl; try (unfold Py.len; simpl; lia); lra.
Defined.

End SearchFacts.

(** ** vector_search.py: order of the evidence and repeated queries *)

Section RetrievalOrderFacts.
Import EmbeddingEngine VectorSearch Examples.
Open Scope Z_scope.

Lemma similarity_range (d : R) : (0 <= d -> 0 < 1 / (1 + d) <= 1)%R.
Proof.
  intros Hd. unfold Rdiv. rewrite Rmult_1_l. split.
  - apply Rinv_0_lt_compat. lra.
  - assert (H : (/ (1 + d) <= / 1)%R) by (apply Rinv_le_contravar; lra).
    now rewrite Rinv_1 in H.
Qed.

Lemma similarity_antitone (d1 d2 : R) :
  (0 <= d1 -> d1 <= d2 -> 1 / (1 + d1) >= 1 / (1 + d2))%R.
Proof.
  intros H0 Hle. apply Rle_ge. unfold Rdiv. rewrite !Rmult_1_l.
  apply Rinv_le_contravar; lra.
Qed.

Lemma format_results_descending md hits results :
  format_results md hits = Some results ->
  StronglySorted (fun a b => snd a <= snd b)%R hits ->
  Forall (fun h => 0 <= snd h)%R hits ->
  StronglySorted (fun a b => snd (fst a) >= snd (fst b))%R results
  /\ Forall (fun r => 0 < snd (fst r) <= 1)%R results.
Proof.
  revert results. induction hits as [| [idx distance] rest IH];
    simpl; intros results H Hsorted Hpos.
  - injection H as <-. split; constructor.
  - apply StronglySorted_inv in Hsorted as [Hsorted Hmin].
    inversion Hpos as [| ? ? Hd Hpos']; subst. simpl in Hd.
    destruct (idx <? Py.len md); [| now apply IH].
    destruct (Req_EM_T (1 + distance) 0); [discriminate|].
    destruct (Py.index md idx) as [m |]; [| discriminate].
    destruct (format_results md rest) as [results' |] eqn:E; [| discriminate].
    injection H as <-. destruct (IH _ eq_refl Hsorted Hpos') as [Hs Hr].
    split; constructor; try assumption.
    + destruct (format_results_trace _ _ E) as [Htrace _].
      eapply Forall_impl; [| exact Htrace].
      intros r (d & Hin & _ & -> & _). simpl.
      rewrite Forall_forall in Hmin. specialize (Hmin _ Hin). simpl in Hmin.
      now apply similarity_antitone.
    + simpl. now apply similarity_range.
Qed.

Lemma filter_results_forall (P : R -> Prop) min_similarity results :
  Forall (fun r => P (snd (fst r))) results ->
  Forall (fun e => P (e_similarity_score e)) (filter_results min_similarity results).
Proof.
  induction 1 as [| [[idx similarity] m] rest Hx _ IH]; simpl; [constructor|].
  destruct (Py.Rgeb similarity min_similarity); [| exact IH].
  constructor; [exact Hx | exact IH].
Qed.

Lemma filter_results_descending min_similarity results :
  StronglySorted (fun a b => snd (fst a) >= snd (fst b))%R results ->
  StronglySorted (fun a b => e_similarity_score a >= e_similarity_score b)%R
                 (filter_results min_similarity results).
Proof.
  induction 1 as [| [[idx similarity] m] rest _ IH Hmax]; simpl; [constructor|].
  destruct (Py.Rgeb similarity min_similarity); [| exact IH].
  constructor; [exact IH|].
  now apply (filter_results_forall (fun s => similarity >= s)%R).
Qed.

(** X20. When FAISS returns its slots by ascending, non-negative
    distance, the evidence [retrieve_evidence] returns is ordered by
    descending similarity score, and every similarity score lies in (0, 1]. *)
Theorem retrieve_evidence_descending_similarity
    (self : EvidenceRetriever) (query : string) (top_k : Z) (min_similarity : R)
    (q : vector) (faiss : faiss_index) (hits : list (Z * R)) :
  fst (encode_text (embedding_engine self) query true) = Some q ->
  index (vector_search self) = Some faiss ->
  faiss q top_k = Some hits ->
  StronglySorted (fun a b => snd a <= snd b)%R hits ->
  Forall (fun h => 0 <= snd h)%R hits ->
  StronglySorted (fun a b => e_similarity_score a >= e_similarity_score b)%R
                 (fst (retrieve_evidence self query top_k min_similarity))
  /\ Forall (fun e => 0 < e_similarity_score e <= 1)%R
            (fst (retrieve_evidence self query top_k min_similarity)).
Proof.
  intros Henc Hidx Hhits Hsorted Hpos. unfold retrieve_evidence.
  destruct (encode_text (embedding_engine self) query true) as [emb engine'].
  simpl in Henc. subst emb. simpl fst. unfold search. rewrite Hidx, Hhits.
  destruct (format_results (metadata (vector_search self)) hits) as [results |] eqn:E.
  - destruct (format_results_descending _ E Hsorted Hpos) as [Hs Hr].
    split; [now apply filter_results_descending|].
    now apply (filter_results_forall (fun s => 0 < s <= 1)%R).
  - split; constructor.
Qed.

Lemma retrieve_evidence_descending_similarity_witness :
  fst (encode_text (embedding_engine two_record_retriever) "vaccine" true)
  = Some [1%R; 0%R]
  /\ StronglySorted (fun a b => snd a <= snd b)%R [(0, 0.5%R); (1, 1%R)]
  /\ StronglySorted (fun a b => e_similarity_score a >= e_similarity_score b)%R
       (fst (retrieve_evidence two_record_retriever "vaccine" 2 0%R)).
Proof.
  assert (Hs : StronglySorted (fun a b : Z * R => snd a <= snd b)%R
                 [(0, 0.5%R); (1, 1%R)]).
  { repeat constructor. simpl. lra. }
  split; [reflexivity|]. split; [exact Hs|].
  apply (@retrieve_evidence_descending_similarity two_record_retriever "vaccine" 2 0%R
           [1%R; 0%R] (faiss_returning [(0, 0.5%R); (1, 1%R)])
           [(0, 0.5%R); (1, 1%R)] eq_refl eq_refl eq_refl Hs).
  repeat constructor; simpl; lra.
Defined.

Lemma encode_text_from_cache e text embedding e' :
  encode_text e text true = (Some embedding, e') ->
  forall other_model,
    encode_text (with_model e' (Some other_model)) text true
    = (Some embedding, with_model e' (Some other_model)).
Proof.
  unfold encode_text at 1. intros H other_model.
  destruct (model e) as [encode |] eqn:Hm; [| discriminate].
  unfold encode_text. simpl model.
  destruct (blank text) eqn:Hb.
  - injection H as <- <-. reflexivity.
  - simpl _get_text_hash. simpl embedding_cache.
    destruct (Dict.get (_get_text_hash e text) (embedding_cache e)) as [cached |] eqn:Hc.
    + injection H as <- <-. now rewrite Hc.
    + destruct (encode text) as [emb |]; [| discriminate].
      injection H as <- <-. simpl. now rewrite dict_get_set_same.
Qed.

(** X21. Once a query has been embedded, asking again returns the same
    evidence from the embedding cache (or the zero vector of a blank query)
    without consulting the model: the result is the same whatever the model
    would now answer. *)
Theorem retrieve_evidence_repeats_from_cache
    (self : EvidenceRetriever) (query : string) (top_k : Z) (min_similarity : R)
    (q : vector) (other_model : string -> option vector) :
  fst (encode_text (embedding_engine self) query true) = Some q ->
  let after := snd (retrieve_evidence self query top_k min_similarity) in
  fst (retrieve_evidence
         {| embedding_engine := with_model (embedding_engine after) (Some other_model);
            vector_search := vector_search after |}
         query top_k min_similarity)
  = fst (retrieve_evidence self query top_k min_similarity).
Proof.
  intros Henc after. subst after. unfold retrieve_evidence at 2 3 4.
  destruct (encode_text (embedding_engine self) query true) as [emb engine'] eqn:E.
  simpl in Henc. subst emb. simpl.
  unfold retrieve_evidence.
  simpl embedding_engine. simpl vector_search.
  now rewrite (encode_text_from_cache _ _ E other_model).
Qed.

Lemma retrieve_evidence_repeats_from_cache_witness :
  fst (encode_text (embedding_engine two_record_retriever) "vaccine" true)
  = Some [1%R; 0%R]
  /\ fst (retrieve_evidence
            {| embedding_engine :=
                 with_model
                   (embedding_engine
                      (snd (retrieve_evidence two_record_retriever "vaccine" 2 0%R)))
                   (Some (fun _ => None));
               vector_search :=
                 vector_search
                   (snd (retrieve_evidence two_record_retriever "vaccine" 2 0%R)) |}
            "vaccine" 2 0%R)
     = fst (retrieve_evidence two_record_retriever "vaccine" 2 0%R).
Proof.
  split; [reflexivity|].
  apply (@retrieve_evidence_repeats_from_cache two_record_retriever "vaccine" 2 0%R
           [1%R; 0%R] (fun _ => None)).
  reflexivity.
Defined.

End RetrievalOrderFacts.

(** ** reranker.py and vector_search.py: what reranking returns *)

Section RerankFacts.
Import EmbeddingEngine VectorSearch Examples.
Open Scope Z_scope.

Lemma Rltb_false_ge (a b : R) : Py.Rltb a b = false -> (a >= b)%R.
Proof. unfold Py.Rltb. destruct (Rlt_dec a b); [discriminate | lra]. Qed.

Lemma Rltb_true_lt (a b : R) : Py.Rltb a b = true -> (a < b)%R.
Proof. unfold Py.Rltb. destruct (Rlt_dec a b); [easy | discriminate]. Qed.

Lemma insert_desc_sorted (A : Type) (key : A -> R) x l :
  StronglySorted (fun a b => key a >= key b)%R l ->
  StronglySorted (fun a b => key a >= key b)%R (Py.insert_desc key x l).
Proof.
  induction 1 as [| y rest Hrest IH Hy]; simpl.
  - repeat constructor.
  - destruct (Py.Rltb (key x) (key y)) eqn:Hlt.
    + apply Rltb_true_lt in Hlt. constructor; [exact IH|].
      eapply Permutation_Forall; [symmetry; apply insert_desc_permutation|].
      constructor; [lra | exact Hy].
    + apply Rltb_false_ge in Hlt. constructor; [now constructor|].
      constructor; [exact Hlt|].
      eapply Forall_impl; [| exact Hy]. intros z Hz. simpl in Hz. lra.
Qed.

Lemma sort_desc_sorted (A : Type) (key : A -> R) l :
  StronglySorted (fun a b => key a >= key b)%R (Py.sort_desc key l).
Proof.
  induction l as [| x l IH]; simpl; [constructor | now apply insert_desc_sorted].
Qed.

Lemma sort_desc_of_sorted (A : Type) (key : A -> R) l :
  StronglySorted (fun a b => key a >= key b)%R l -> Py.sort_desc key l = l.
Proof.
  induction 1 as [| x rest Hrest IH Hx]; simpl; [reflexivity|].
  rewrite IH. destruct rest as [| y rest']; simpl; [reflexivity|].
  inversion Hx as [| ? ? Hxy _]; subst.
  unfold Py.Rltb. destruct (Rlt_dec (key x) (key y)); [lra | reflexivity].
Qed.

Lemma firstn_sorted (A : Type) (R' : A -> A -> Prop) n l :
  StronglySorted R' l -> StronglySorted R' (firstn n l).
Proof.
  intros H. revert n. induction H as [| x rest Hrest IH Hx]; intros [| n]; simpl;
    try constructor.
  - apply IH.
  - rewrite Forall_forall in *. intros z Hz. apply Hx.
    eapply firstn_included, Hz.
Qed.


Lemma score_passages_enough passages scores :
  (List.length passages <= List.length scores)%nat ->
  exists scored, score_passages passages scores = Some scored.
Proof.
  revert scores. induction passages as [| p rest IH]; intros scores Hlen; simpl.
  - eauto.
  - destruct scores as [| s scores']; simpl in Hlen; [lia|].
    destruct (IH scores') as [scored ->]; [lia | eauto].
Qed.


Lemma rerank_body_succeeds model query passages top_k pairs scores :
  query_passage_pairs query passages = Some pairs ->
  model pairs = Some scores ->
  (List.length passages <= List.length scores)%nat ->
  exists scored,
    score_passages passages scores = Some scored
    /\ rerank_body model query passages top_k
       = Some (truncate top_k (Py.sort_desc combined_key scored)).
Proof.
  intros Hpairs Hscores Hlen.
  destruct (score_passages_enough passages scores Hlen) as [scored Hs].
  exists scored. split; [exact Hs|].
  unfold rerank_body. now rewrite Hpairs, Hscores, Hs.
Qed.

Lemma rerank_of_body (self : Reranker.CrossEncoderReranker) m query passages top_k r :
  Reranker.model self = Some m ->
  rerank_body m query passages top_k = Some r ->
  Reranker.rerank self query passages top_k = r.
Proof.
  intros Hm Hr. unfold Reranker.rerank. rewrite Hm.
  destruct passages as [| p rest]; [| now rewrite Hr].
  unfold rerank_body in Hr. simpl in Hr.
  destruct (m []) as [scores |]; [| discriminate].
  injection Hr as <-. now destruct top_k as [k |]; simpl; [destruct (k =? 0)|];
    unfold Py.slice_to; try destruct (0 <=? k); try rewrite firstn_nil.
Qed.


(** X23. When the cross-encoder scores every passage and [top_k] is
    positive, reranking returns exactly [min(top_k, n)] of the [n] passages;
    with no [top_k], or [top_k = 0], it returns all of them, the same ids
    rearranged. *)
Theorem rerank_length
    (self : Reranker.CrossEncoderReranker) (m : cross_encoder_model)
    (query : string) (passages : list evidence) (top_k : option Z)
    (pairs : list (string * string)) (scores : list R) :
  Reranker.model self = Some m ->
  query_passage_pairs query passages = Some pairs ->
  m pairs = Some scores ->
  (List.length passages <= List.length scores)%nat ->
  match top_k with
  | Some k =>
      if k =? 0
      then Permutation (map e_id (Reranker.rerank self query passages top_k))
                       (map e_id passages)
      else 0 < k ->
           List.length (Reranker.rerank self query passages top_k)
           = Nat.min (Z.to_nat k) (List.length passages)
  | None => Permutation (map e_id (Reranker.rerank self query passages top_k))
                        (map e_id passages)
  end.
Proof.
  intros Hm Hpairs Hscores Hlen.
  destruct (rerank_body_succeeds m query passages top_k Hpairs Hscores Hlen)
    as (scored & Hs & Hbody).
  rewrite (rerank_of_body self query passages top_k Hm Hbody).
  assert (Hperm : Permutation (map e_id (Py.sort_desc combined_key scored))
                              (map e_id passages)).
  { rewrite <- (map_score_passages e_id (fun p r c => eq_refl) _ _ Hs).
    apply Permutation_map, sort_desc_permutation. }
  destruct top_k as [k |]; simpl; [| exact Hperm].
  destruct (k =? 0) eqn:Hk; [exact Hperm|].
  intros Hpos. unfold Py.slice_to.
  assert (E : (0 <=? k) = true) by (apply Z.leb_le; lia). rewrite E.
  rewrite length_firstn.
  apply Permutation_length in Hperm. rewrite !length_map in Hperm.
  now rewrite Hperm.
Qed.

(** X24. When the scored passages are already in non-increasing order of
    combined score, reranking leaves them in that order, ties included: the
    sort is stable. *)
Theorem rerank_keeps_sorted_order
    (m : cross_encoder_model) (query : string) (passages scored : list evidence)
    (top_k : option Z) (pairs : list (string * string)) (scores : list R) :
  query_passage_pairs query passages = Some pairs ->
  m pairs = Some scores ->
  score_passages passages scores = Some scored ->
  StronglySorted (fun a b => combined_key a >= combined_key b)%R scored ->
  _rerank_with_cross_encoder m query passages top_k = truncate top_k scored
  /\ Reranker.rerank {| Reranker.model := Some m |} query passages top_k
     = truncate top_k scored.
Proof.
  intros Hpairs Hscores Hs Hsorted.
  assert (Hbody : rerank_body m query passages top_k = Some (truncate top_k scored)).
  { unfold rerank_body. rewrite Hpairs, Hscores, Hs.
    now rewrite sort_desc_of_sorted. }
  split.
  - unfold _rerank_with_cross_encoder. now rewrite Hbody.
  - exact (@rerank_of_body {| Reranker.model := Some m |} m query passages top_k _
             eq_refl Hbody).
Qed.

Lemma add_ranking_metadata_nth method l i :
  nth_error (add_ranking_metadata method l) i
  = option_map (fun p => with_ranking p (Z.of_nat i + 1) method) (nth_error l i).
Proof.
  unfold add_ranking_metadata.
  assert (G : forall start,
             nth_error (map (fun ir => with_ranking (snd ir) (fst ir + 1) method)
                            (Py.enumerate_from start l)) i
             = option_map (fun p => with_ranking p (start + Z.of_nat i + 1) method)
                          (nth_error l i)).
  { revert i. induction l as [| x l IH]; intros i start.
    - now destruct i.
    - destruct i as [| j]; simpl.
      + do 2 f_equal. lia.
      + rewrite IH. destruct (nth_error l j); simpl; [| reflexivity].
        do 2 f_equal. lia. }
  apply G.
Qed.

(** X25. The results of [retrieve_and_rerank], in vector_search.py and in
    reranker.py, are numbered from 1 in the order returned: the result at
    index [i] has [final_rank = i + 1], and every result carries a ranking
    method. *)
Theorem retrieve_and_rerank_numbers_results
    (query : string) (initial_top_k final_top_k : Z) (min_similarity : R)
    (i : nat) (r : evidence) :
  (forall self : VectorSearch.HybridRetriever,
      nth_error (fst (VectorSearch.retrieve_and_rerank self query
                        initial_top_k final_top_k min_similarity)) i = Some r ->
      e_final_rank r = Some (Z.of_nat i + 1) /\ e_ranking_method r <> None)
  /\ (forall self : Reranker.HybridRetriever,
      nth_error (fst (Reranker.retrieve_and_rerank self query
                        initial_top_k final_top_k min_similarity)) i = Some r ->
      e_final_rank r = Some (Z.of_nat i + 1)
      /\ e_ranking_method r = Some hybrid_dense_crossencoder).
Proof.
  split; intros self.
  - rewrite hybrid_retrieve_and_rerank_fst.
    destruct (fst (retrieve_evidence _ query initial_top_k min_similarity));
      [now destruct i|].
    rewrite add_ranking_metadata_nth.
    destruct (nth_error _ i); simpl; [| discriminate].
    intros [= <-]. now split.
  - rewrite reranker_retrieve_and_rerank_fst.
    destruct (fst (retrieve_evidence _ query initial_top_k min_similarity));
      [now destruct i|].
    rewrite add_ranking_metadata_nth.
    destruct (nth_error _ i); simpl; [| discriminate].
    intros [= <-]. now split.
Qed.

End RerankFacts.

Section RerankWitnesses.
Import EmbeddingEngine VectorSearch Examples.
Open Scope Z_scope.

Lemma fused_score_monotone (s_a r_a s_b r_b : R) :
  (s_b <= s_a -> r_b <= r_a ->
   Fusion._combine_scores s_b r_b <= Fusion._combine_scores s_a r_a)%R.
Proof.
  intros Hs Hr. rewrite !combine_scores_refines_spec. unfold Fusion.fused_score_spec.
  apply clamp01_monotone. pose proof (sigmoid_monotone Hr). lra.
Qed.


Lemma rerank_length_witness :
  (List.length stage_one_candidates <= List.length [2%R; 1%R])%nat
  /\ 0 < 1
  /\ List.length (Reranker.rerank {| Reranker.model := Some scoring_model |}
                    "vaccine" stage_one_candidates (Some 1)) = 1%nat.
Proof.
  assert (Hlen : (List.length stage_one_candidates <= List.length [2%R; 1%R])%nat)
    by (simpl; lia).
  assert (Hpos : 0 < 1) by lia.
  split; [exact Hlen|]. split; [exact Hpos|].
  exact (@rerank_length {| Reranker.model := Some scoring_model |} scoring_model
           "vaccine" stage_one_candidates (Some 1) _ [2%R; 1%R]
           eq_refl eq_refl eq_refl Hlen Hpos).
Defined.

Lemma rerank_keeps_sorted_order_witness :
  exists scored,
    score_passages stage_one_candidates [2%R; 1%R] = Some scored
    /\ StronglySorted (fun a b => combined_key a >= combined_key b)%R scored
    /\ _rerank_with_cross_encoder scoring_model "vaccine" stage_one_candidates None
       = scored.
Proof.
  eexists. split; [reflexivity|].
  assert (Hs : StronglySorted (fun a b => combined_key a >= combined_key b)%R
                 [ with_scores (make_evidence 0 (1 / (1 + 0.5))%R vaccine_safety) 2
                     (Fusion._combine_scores (1 / (1 + 0.5)) 2);
                   with_scores (make_evidence 1 (1 / (1 + 1))%R digital_initiative) 1
                     (Fusion._combine_scores (1 / (1 + 1)) 1) ]).
  { apply SSorted_cons.
    - apply SSorted_cons; [apply SSorted_nil | apply Forall_nil].
    - apply Forall_cons; [| apply Forall_nil].
      unfold combined_key. simpl.
      apply Rle_ge, fused_score_monotone; lra. }
  split; [exact Hs|].
  exact (proj1 (@rerank_keeps_sorted_order scoring_model "vaccine"
                  stage_one_candidates _ None _ [2%R; 1%R]
                  eq_refl eq_refl eq_refl Hs)).
Defined.

Lemma retrieve_and_rerank_numbers_results_witness :
  nth_error (fst (VectorSearch.retrieve_and_rerank hybrid_without_model
                    "vaccine" 2 2 0%R)) 1
  = Some (with_ranking (make_evidence 1 (1 / (1 + 1))%R digital_initiative)
            2 dense_only)
  /\ e_final_rank (with_ranking (make_evidence 1 (1 / (1 + 1))%R digital_initiative)
                     2 dense_only) = Some 2.
Proof.
  assert (Hnth : nth_error (fst (VectorSearch.retrieve_and_rerank hybrid_without_model
                                   "vaccine" 2 2 0%R)) 1
                 = Some (with_ranking
                           (make_evidence 1 (1 / (1 + 1))%R digital_initiative)
                           2 dense_only)).
  { rewrite hybrid_retrieve_and_rerank_fst.
    change (VectorSearch.evidence_retriever hybrid_without_model)
      with two_record_retriever.
    rewrite stage_one_of_two_records. reflexivity. }
  split; [exact Hnth|].
  exact (proj1 (proj1 (@retrieve_and_rerank_numbers_results "vaccine" 2 2 0%R 1%nat _)
                  hybrid_without_model Hnth)).
Defined.

End RerankWitnesses.

(** ** embedding_engine.py: similarity of embeddings *)

Section SimilarityFacts.
Import EmbeddingEngine Examples.
Open Scope R_scope.

Lemma dot_comm (a b : vector) : dot a b = dot b a.
Proof.
  revert b. induction a as [| x a IH]; intros [| y b]; simpl; try reflexivity.
  rewrite IH, (Rmult_comm x y). reflexivity.
Qed.







Lemma clamp_bounds (x : R) : 0 <= Py.max 0 (Py.min 1 x) <= 1.
Proof. rewrite py_max_Rmax, py_min_Rmin. apply clamp01_bounds. Qed.

Lemma compute_similarity_sym (a b : vector) :
  compute_similarity a b = compute_similarity b a.
Proof.
  unfold compute_similarity. rewrite (dot_comm b a).
  destruct (dot a b); [| reflexivity].
  destruct (Req_EM_T (norm a) 0), (Req_EM_T (norm b) 0); try reflexivity.
  now rewrite (Rmult_comm (norm b) (norm a)).
Qed.

(** X26. [compute_similarity] always returns a number in [0,1], and it
    is symmetric in its two arguments. *)
Theorem compute_similarity_range_and_symmetry (a b : vector) :
  0 <= compute_similarity a b <= 1
  /\ compute_similarity a b = compute_similarity b a.
Proof.
  split.
  - unfold compute_similarity.
    destruct (dot a b); [| lra].
    destruct (Req_EM_T (norm a) 0); [lra|].
    destruct (Req_EM_T (norm b) 0); [lra|].
    apply clamp_bounds.
  - apply compute_similarity_sym.
Qed.


End SimilarityFacts.

Section SimilarTextsFacts.
Import EmbeddingEngine Examples.
Open Scope Z_scope.


Lemma similarities_from_sound start query_embedding text_embeddings i s :
  In (i, s) (similarities_from start query_embedding text_embeddings) ->
  start <= i
  /\ exists e, nth_error text_embeddings (Z.to_nat (i - start)) = Some (Some e)
               /\ s = compute_similarity query_embedding e.
Proof.
  revert start. induction text_embeddings as [| [e |] rest IH]; intros start; simpl.
  - intros [].
  - intros [[= <- <-] | Hin].
    + split; [lia|]. exists e. rewrite Z.sub_diag. now split.
    + destruct (IH _ Hin) as [Hle (e' & Hnth & Hs)]. split; [lia|].
      exists e'. split; [| exact Hs].
      replace (Z.to_nat (i - start)) with (S (Z.to_nat (i - (start + 1)))) by lia.
      exact Hnth.
  - intros Hin. destruct (IH _ Hin) as [Hle (e' & Hnth & Hs)]. split; [lia|].
    exists e'. split; [| exact Hs].
    replace (Z.to_nat (i - start)) with (S (Z.to_nat (i - (start + 1)))) by lia.
    exact Hnth.
Qed.

Lemma similarities_from_length start query_embedding text_embeddings :
  (List.length (similarities_from start query_embedding text_embeddings)
   <= List.length text_embeddings)%nat.
Proof.
  revert start. induction text_embeddings as [| [e |] rest IH]; intros start; simpl.
  - lia.
  - specialize (IH (start + 1)). lia.
  - specialize (IH (start + 1)). lia.
Qed.

Lemma slice_to_length_le (A : Type) (l : list A) k :
  (List.length (Py.slice_to l k) <= List.length l)%nat.
Proof.
  unfold Py.slice_to. destruct (0 <=? k); rewrite length_firstn; lia.
Qed.

Lemma slice_to_sorted (A : Type) (R' : A -> A -> Prop) (l : list A) k :
  StronglySorted R' l -> StronglySorted R' (Py.slice_to l k).
Proof. intros H. unfold Py.slice_to. destruct (0 <=? k); now apply firstn_sorted. Qed.

(** X28. [find_similar_texts] returns pairs in descending order of
    similarity; each pair names a position of the input that holds an
    embedding, together with the similarity of the query to that embedding;
    [None] entries are skipped, and for [top_k >= 0] at most [top_k] pairs
    are returned. *)
Theorem find_similar_texts_sound_and_sorted
    (query_embedding : vector) (text_embeddings : list (option vector)) (top_k : Z) :
  StronglySorted (fun a b => snd a >= snd b)%R
                 (find_similar_texts query_embedding text_embeddings top_k)
  /\ Forall (fun p => 0 <= fst p
                      /\ exists e,
                           nth_error text_embeddings (Z.to_nat (fst p)) = Some (Some e)
                           /\ snd p = compute_similarity query_embedding e)
            (find_similar_texts query_embedding text_embeddings top_k)
  /\ (List.length (find_similar_texts query_embedding text_embeddings top_k)
      <= List.length text_embeddings)%nat
  /\ (0 <= top_k ->
      (List.length (find_similar_texts query_embedding text_embeddings top_k)
       <= Z.to_nat top_k)%nat).
Proof.
  unfold find_similar_texts. split; [| split; [| split]].
  - apply slice_to_sorted, sort_desc_sorted.
  - rewrite Forall_forall. intros [i s] Hin.
    apply slice_to_included in Hin.
    eapply Permutation_in in Hin; [| apply sort_desc_permutation].
    apply similarities_from_sound in Hin as [Hle (e & Hnth & Hs)].
    simpl. split; [exact Hle|]. exists e. rewrite Z.sub_0_r in Hnth. now split.
  - etransitivity; [apply slice_to_length_le|].
    rewrite (Permutation_length (sort_desc_permutation _ _)).
    apply similarities_from_length.
  - intros Hk. unfold Py.slice_to.
    assert (E : (0 <=? top_k) = true) by now apply Z.leb_le.
    rewrite E, length_firstn. lia.
Qed.

Lemma find_similar_texts_sound_and_sorted_witness :
  0 <= 1
  /\ (List.length (find_similar_texts [1%R; 0%R]
                     [Some [1%R; 0%R]; None; Some [0%R; 1%R]] 1) <= 1)%nat.
Proof.
  assert (Hk : 0 <= 1) by lia.
  split; [exact Hk|].
  exact (proj2 (proj2 (proj2 (find_similar_texts_sound_and_sorted [1%R; 0%R]
                                [Some [1%R; 0%R]; None; Some [0%R; 1%R]] 1))) Hk).
Defined.

End SimilarTextsFacts.

(** ** embedding_engine.py: batch encoding *)

Section EncodeBatchFacts.
Import EmbeddingEngine Examples.
Open Scope list_scope.
Open Scope nat_scope.

Variable e : TextEmbeddingEngine.
Variable use_cache : bool.









Lemma merge_in_order_length embs batch :
  List.length (merge_in_order embs batch) = List.length embs.
Proof.
  revert batch. induction embs as [| [v |] embs IH]; intros batch; simpl.
  - reflexivity.
  - now rewrite IH.
  - destruct batch; simpl; now rewrite IH.
Qed.


End EncodeBatchFacts.

Section EncodeBatchTheorem.
Import EmbeddingEngine Examples.
Open Scope list_scope.
Open Scope nat_scope.




End EncodeBatchTheorem.

(** ** embedding_engine.py: text preprocessing *)

Section PreprocessFacts.
Import EmbeddingEngine.
Open Scope string_scope.
Open Scope nat_scope.






Lemma is_empty_append_char (s : string) c : is_empty (s ++ String c EmptyString) = false.
Proof. now destruct s. Qed.














End PreprocessFacts.
